(** * Kodr: the Messages, Browse and Projects screens over their backend

    The three screens of the marketplace client are React components whose
    handlers read the state captured at render time, issue one declarative
    query to the hosted backend, await its answer and then call state
    setters, [console.error] and [toast].  Each handler is embedded as a
    program of a small state monad over a "world" holding the component's
    state, the backend's state and the ordered log of everything the handler
    emitted (requests, console lines, toasts).  The backend is an interface:
    every theorem about a handler holds for every implementation of it.
    A handler runs to completion, its awaited answer included, before the
    next one starts; two pending requests answered out of order are not
    modelled. *)

From Stdlib Require Import List String Ascii Bool Arith NArith ZArith Lia DecimalString.
Import ListNotations.

Local Open Scope string_scope.
Local Open Scope list_scope.

(** ** JavaScript strings

    A JavaScript string is a sequence of code units.  The development works
    over the code units 0..255, which is what [ascii] holds; [''] is
    [EmptyString] and [===] on strings is [String.eqb]. *)

Module JS.

(** WhiteSpace and LineTerminator code units of ECMAScript below 256:
    TAB, LF, VT, FF, CR, SPACE and NO-BREAK SPACE. *)
Definition isWhiteSpace (c : ascii) : bool :=
  let n := nat_of_ascii c in
  ((9 <=? n)%nat && (n <=? 13)%nat) || (n =? 32)%nat || (n =? 160)%nat.

Fixpoint trimStart (s : string) : string :=
  match s with
  | EmptyString => EmptyString
  | String c s' => if isWhiteSpace c then trimStart s' else s
  end.

Fixpoint trimEnd (s : string) : string :=
  match s with
  | EmptyString => EmptyString
  | String c s' =>
      match trimEnd s' with
      | EmptyString => if isWhiteSpace c then EmptyString else String c EmptyString
      | t => String c t
      end
  end.

(** [String.prototype.trim] *)
Definition trim (s : string) : string := trimEnd (trimStart s).

(** [!s] for a string [s]: only the empty string is falsy. *)
Definition not (s : string) : bool := s =? "".

(** [String.prototype.includes]: [t] occurs in [s] as a substring. *)
Fixpoint includes (s t : string) : bool :=
  prefix t s ||
  match s with
  | EmptyString => false
  | String _ s' => includes s' t
  end.

(** [String.prototype.toLowerCase] on the code units below 256: the
    letters A-Z and the Latin-1 capitals (all of 192..222 but the
    multiplication sign 215) move up by 32. *)
Definition lowerChar (c : ascii) : ascii :=
  let n := nat_of_ascii c in
  if ((65 <=? n)%nat && (n <=? 90)%nat) ||
     ((192 <=? n)%nat && (n <=? 222)%nat && negb (n =? 215)%nat)
  then ascii_of_nat (n + 32) else c.

Fixpoint toLowerCase (s : string) : string :=
  match s with
  | EmptyString => EmptyString
  | String c s' => String (lowerChar c) (toLowerCase s')
  end.

(** A string made of white space only (the empty string included). *)
Fixpoint whitespaceOnly (s : string) : bool :=
  match s with
  | EmptyString => true
  | String c s' => isWhiteSpace c && whitespaceOnly s'
  end.

(** [data || []] for a nullable array. *)
Definition orEmpty {A} (data : option (list A)) : list A :=
  match data with Some rows => rows | None => [] end.

End JS.

(** ** Rows

    The generated [Database] types are not part of the sources at hand; a
    row carries the columns the screens read.  [created_at] and
    [updated_at] are the instants behind the backend's timestamps. *)

Definition timestamp := N.

Module User.
Record t := { id : string }.
End User.

Module PostgrestError.
Record t := { message : string; code : string }.
End PostgrestError.

Module Sender.
Record t := { full_name : string; avatar_url : option string }.
End Sender.

(** A row of [messages] as the change feed delivers it in [payload.new]. *)
Module MessageRow.
Record t := {
  id : string;
  conversation_id : string;
  sender_id : string;
  content : string;
  created_at : timestamp
}.
End MessageRow.

(** [type Message]: the row joined with its sender's display fields. *)
Module Message.
Record t := {
  id : string;
  conversation_id : string;
  sender_id : string;
  content : string;
  created_at : timestamp;
  sender : Sender.t
}.
End Message.

Module Participant.
Record profile := { full_name : string; avatar_url : option string; role : string }.
Record t := { user_id : string; profiles : profile }.
End Participant.

(** [type Conversation].  The code reads [conversation_participants]
    through [?.], so the field may be absent. *)
Module Conversation.
Record preview := {
  preview_id : string;
  preview_content : string;
  preview_created_at : timestamp;
  preview_sender : Sender.t
}.
Record t := {
  id : string;
  updated_at : timestamp;
  conversation_participants : option (list Participant.t);
  messages : list preview
}.
End Conversation.

(** A row of [profiles] as the Browse screen reads it. *)
Module Profile.
Record t := {
  id : string;
  full_name : string;
  role : string;
  bio : option string;
  location : option string;
  xp : N;
  followers_count : N
}.
End Profile.

Module Team.
Record t := {
  id : string;
  name : string;
  description : option string;
  created_at : timestamp;
  owner : option Profile.t;
  team_members : list (string * Profile.t)
}.
End Team.

Module Project.
Record t := {
  id : string;
  title : string;
  description : string;
  status : string;
  hirer_id : string;
  created_at : timestamp
}.

(** The text columns of a project row, by name. *)
Definition column (c : string) (p : t) : option string :=
  if c =? "id" then Some (id p)
  else if c =? "title" then Some (title p)
  else if c =? "description" then Some (description p)
  else if c =? "status" then Some (status p)
  else if c =? "hirer_id" then Some (hirer_id p)
  else None.

End Project.

(** A row of [project_applications]. *)
Module Application.
Record t := {
  project_id : string;
  coder_id : string;
  message : string
}.
End Application.

Module Follow.
Record t := { follower_id : string; following_id : string }.
End Follow.

(** The object passed to [insert] on [messages]. *)
Module NewMessage.
Record t := { conversation_id : string; sender_id : string; content : string }.
End NewMessage.

(** ** The query interface of the backend *)

(** [.eq(column, value)] *)
Record Filter := eq_ { column : string; value : string }.

(** [.order(by, { ascending })] *)
Record Order := order_ { by_ : string; ascending : bool }.

(** One constructor per [from(table)] and verb used by the screens; the
    [select] column lists are fixed by the call sites and fix the type of
    the rows that come back. *)
Inductive Request : Type :=
| select_conversations (order : Order)
    (* conversations, with conversation_participants(user_id, profiles(..))
       and messages(id, content, created_at, sender) *)
| select_message_single (eq : list Filter)
    (* messages, with sender:profiles(full_name, avatar_url); .single() *)
| select_messages (eq : list Filter) (order : Order)
    (* messages, with sender:profiles(full_name, avatar_url) *)
| insert_message (row : NewMessage.t)
| select_profiles (eq : list Filter) (order : Order)
    (* profiles, with user_skills(skills(name, category)) *)
| select_teams (order : Order)
    (* teams, with owner and team_members(role, profiles) *)
| insert_follow (row : Follow.t)
| select_projects (eq : list Filter) (order : Order)
    (* projects, with project_skills(skills(..)) and hirer(full_name, avatar_url) *)
| insert_project_application (row : Application.t)
| select_applications_with_project (eq : list Filter) (order : Order)
    (* project_applications, with projects(title, hirer(full_name)) *)
| select_applications_with_coder (eq : list Filter) (order : Order).
    (* project_applications, with coder:profiles *)

(** The type of [data] on success.  Where a call site guards [data]
    against [null] ([data?.filter], [data || []]) the answer is optional;
    where it casts ([data as Message[]]) it is not. *)
Definition answer (q : Request) : Type :=
  match q with
  | select_conversations _ => option (list Conversation.t)
  | select_message_single _ => Message.t
  | select_messages _ _ => list Message.t
  | insert_message _ => unit
  | select_profiles _ _ => option (list Profile.t)
  | select_teams _ => option (list Team.t)
  | insert_follow _ => unit
  | select_projects _ _ => list Project.t
  | insert_project_application _ => unit
  | select_applications_with_project _ _ => option (list Application.t)
  | select_applications_with_coder _ _ => option (list Application.t)
  end.

(** [{ data, error }]: either [error] is null and [data] is the answer, or
    [error] is set. *)
Inductive Response (X : Type) : Type :=
| Success (data : X)
| Failure (error : PostgrestError.t).
Arguments Success {X} data.
Arguments Failure {X} error.

(** The hosted backend, as the client sees it: some state of its own and
    an answer to every request. *)
Class Backend := {
  Srv : Type;
  respond : forall q : Request, Srv -> Response (answer q) * Srv
}.

(** A backend evaluates the [eq] filters of a query on [projects] when
    every row it answers with carries, in each filtered column, the value
    asked for. *)
Definition EvaluatesEq (B : Backend) : Prop :=
  forall (eq : list Filter) (o : Order) (b : Srv) (rows : list Project.t),
    fst (respond (select_projects eq o) b) = Success rows ->
    forall (p : Project.t) (f : Filter),
      In p rows -> In f eq -> Project.column (column f) p = Some (value f).

(** ** What a handler emits *)

Inductive Output : Type :=
| Sent (q : Request)
| ConsoleError (label : string) (error : PostgrestError.t)
| ToastError (msg : string)
| ToastSuccess (msg : string).

Definition isRequest (o : Output) : bool :=
  match o with Sent _ => true | _ => false end.

Definition isConsoleError (o : Output) : bool :=
  match o with ConsoleError _ _ => true | _ => false end.

Definition isToastError (o : Output) : bool :=
  match o with ToastError _ => true | _ => false end.

Definition isToastSuccess (o : Output) : bool :=
  match o with ToastSuccess _ => true | _ => false end.

Definition isToast (o : Output) : bool := isToastError o || isToastSuccess o.

(** ** The handler monad *)

Section Monad.

Context {B : Backend}.

Record World (S : Type) : Type := world {
  ui : S;                (* the component's state *)
  backend : Srv;         (* the backend's state *)
  out : list Output      (* everything emitted so far, oldest first *)
}.
Arguments world {S} _ _ _.
Arguments ui {S} _.
Arguments backend {S} _.
Arguments out {S} _.

Definition M (S A : Type) : Type := World S -> A * World S.

Definition ret {S A} (a : A) : M S A := fun w => (a, w).

Definition bind {S A C} (m : M S A) (k : A -> M S C) : M S C :=
  fun w => let (a, w') := m w in k a w'.

(** Reading the state captured by the handler's closure. *)
Definition get {S} : M S S := fun w => (ui w, w).

(** A state setter, in its functional form [set(prev => f prev)]. *)
Definition modify {S} (f : S -> S) : M S unit :=
  fun w => (tt, world (f (ui w)) (backend w) (out w)).

Definition emit {S} (o : Output) : M S unit :=
  fun w => (tt, world (ui w) (backend w) (out w ++ [o])).

(** [await supabase.from(..)...]: the request goes out, the backend
    answers. *)
Definition call {S} (q : Request) : M S (Response (answer q)) :=
  fun w =>
    let (r, b') := respond q (backend w) in
    (r, world (ui w) b' (out w ++ [Sent q])).

Definition console_error {S} (label : string) (e : PostgrestError.t) : M S unit :=
  emit (ConsoleError label e).

Definition toast_error {S} (msg : string) : M S unit := emit (ToastError msg).

Definition toast_success {S} (msg : string) : M S unit := emit (ToastSuccess msg).

(** Running a handler from a state of the component and of the backend,
    with an empty log. *)
Definition run {S A} (m : M S A) (st : S) (b : Srv) : A * World S :=
  m (world st b []).

End Monad.

Arguments world {B S} _ _ _.
Arguments ui {B S} _.
Arguments backend {B S} _.
Arguments out {B S} _.

Declare Scope handler_scope.
Delimit Scope handler_scope with handler.
Notation "x <- m ;; k" := (bind m (fun x => k))
  (at level 61, m at next level, right associativity) : handler_scope.
Notation "m ;; k" := (bind m (fun _ => k))
  (at level 61, right associativity) : handler_scope.

Local Open Scope handler_scope.

(** ** The Messages screen (src/pages/Messages.tsx) *)

Module Messages.

Record State : Type := {
  conversations : list Conversation.t;
  selectedConversation : option string;
  messages : list Message.t;
  newMessage : string;
  loading : bool
}.

(** The [useState] initial values. *)
Definition initial : State :=
  {| conversations := [];
     selectedConversation := None;
     messages := [];
     newMessage := "";
     loading := true |}.

Definition setConversations (v : list Conversation.t) (st : State) : State :=
  {| conversations := v;
     selectedConversation := selectedConversation st;
     messages := messages st;
     newMessage := newMessage st;
     loading := loading st |}.

Definition setSelectedConversation (v : option string) (st : State) : State :=
  {| conversations := conversations st;
     selectedConversation := v;
     messages := messages st;
     newMessage := newMessage st;
     loading := loading st |}.

Definition setMessages (f : list Message.t -> list Message.t) (st : State) : State :=
  {| conversations := conversations st;
     selectedConversation := selectedConversation st;
     messages := f (messages st);
     newMessage := newMessage st;
     loading := loading st |}.

Definition setNewMessage (v : string) (st : State) : State :=
  {| conversations := conversations st;
     selectedConversation := selectedConversation st;
     messages := messages st;
     newMessage := v;
     loading := loading st |}.

Definition setLoading (v : bool) (st : State) : State :=
  {| conversations := conversations st;
     selectedConversation := selectedConversation st;
     messages := messages st;
     newMessage := newMessage st;
     loading := v |}.

(** [conv.conversation_participants?.some(p => p.user_id === user.id)];
    an absent participant list gives [undefined], which [filter] treats as
    false. *)
Definition isParticipant (user : User.t) (conv : Conversation.t) : bool :=
  match Conversation.conversation_participants conv with
  | Some ps => existsb (fun p => Participant.user_id p =? User.id user) ps
  | None => false
  end.

(** [newMessage.conversation_id === selectedConversation], where the right
    side is a string or [null]. *)
Definition isOpen (conversation_id : string) (selected : option string) : bool :=
  match selected with
  | Some c => conversation_id =? c
  | None => false
  end.

Section Handlers.

Context {B : Backend}.

Definition fetchMessage (messageId : string) : M State unit :=
  r <- call (select_message_single [eq_ "id" messageId]) ;;
  match r with
  | Failure error =>
      console_error "Error fetching message:" error
  | Success data =>
      modify (setMessages (fun prev => prev ++ [data]))
  end.

(** The callback registered on the [messages-channel] for INSERT events. *)
Definition onMessageInsert (payload_new : MessageRow.t) : M State unit :=
  st <- get ;;
  if isOpen (MessageRow.conversation_id payload_new) (selectedConversation st)
  then fetchMessage (MessageRow.id payload_new)
  else ret tt.

Definition fetchConversations (user : option User.t) : M State unit :=
  match user with
  | None => ret tt
  | Some user =>
      r <- call (select_conversations (order_ "updated_at" false)) ;;
      match r with
      | Failure error =>
          console_error "Error fetching conversations:" error ;;
          toast_error "Failed to load conversations"
      | Success data =>
          let userConversations :=
            match data with
            | Some rows => filter (isParticipant user) rows
            | None => []
            end in
          modify (setConversations userConversations) ;;
          modify (setLoading false)
      end
  end.

Definition loadMessages (conversationId : string) : M State unit :=
  r <- call (select_messages [eq_ "conversation_id" conversationId]
                             (order_ "created_at" true)) ;;
  match r with
  | Failure error =>
      console_error "Error loading messages:" error ;;
      toast_error "Failed to load messages"
  | Success data =>
      modify (setMessages (fun _ => data))
  end.

(** The guard [!newMessage.trim() || !selectedConversation || !user]: a
    null or empty selection and a null user are falsy. *)
Definition sendMessage (user : option User.t) : M State unit :=
  st <- get ;;
  match selectedConversation st, user with
  | Some selected, Some user =>
      if JS.not (JS.trim (newMessage st)) || JS.not selected then ret tt
      else
        r <- call (insert_message
                     {| NewMessage.conversation_id := selected;
                        NewMessage.sender_id := User.id user;
                        NewMessage.content := JS.trim (newMessage st) |}) ;;
        match r with
        | Failure error =>
            console_error "Error sending message:" error ;;
            toast_error "Failed to send message"
        | Success _ =>
            modify (setNewMessage "")
        end
  | _, _ => ret tt
  end.

Definition selectConversation (conversationId : string) : M State unit :=
  modify (setSelectedConversation (Some conversationId)) ;;
  loadMessages conversationId.

End Handlers.

(** What the two panes render.  The list pane shows "Loading..." while
    [loading], the message pane shows [messages] only when a conversation
    is selected. *)
Definition shownConversations (st : State) : list Conversation.t :=
  if loading st then [] else conversations st.

(** The list is in creation order: no message is followed by an older
    one. *)
Fixpoint chronological (l : list Message.t) : bool :=
  match l with
  | [] => true
  | m :: l' =>
      match l' with
      | [] => true
      | m' :: _ => (Message.created_at m <=? Message.created_at m')%N
      end && chronological l'
  end.

Definition shownMessages (st : State) : list Message.t :=
  match selectedConversation st with
  | Some c => if JS.not c then [] else messages st
  | None => []
  end.

End Messages.

(** ** The Browse screen *)

Module Browse.

Record State : Type := {
  coders : list Profile.t;
  teams : list Team.t;
  loading : bool;
  searchTerm : string;
  skillFilter : string
}.

Definition initial : State :=
  {| coders := []; teams := []; loading := true;
     searchTerm := ""; skillFilter := "all" |}.

Definition setCoders (v : list Profile.t) (st : State) : State :=
  {| coders := v; teams := teams st; loading := loading st;
     searchTerm := searchTerm st; skillFilter := skillFilter st |}.

Definition setTeams (v : list Team.t) (st : State) : State :=
  {| coders := coders st; teams := v; loading := loading st;
     searchTerm := searchTerm st; skillFilter := skillFilter st |}.

Definition setLoading (v : bool) (st : State) : State :=
  {| coders := coders st; teams := teams st; loading := v;
     searchTerm := searchTerm st; skillFilter := skillFilter st |}.

Definition setSearchTerm (v : string) (st : State) : State :=
  {| coders := coders st; teams := teams st; loading := loading st;
     searchTerm := v; skillFilter := skillFilter st |}.

Definition setSkillFilter (v : string) (st : State) : State :=
  {| coders := coders st; teams := teams st; loading := loading st;
     searchTerm := searchTerm st; skillFilter := v |}.

Section Handlers.

Context {B : Backend}.

(** [try { ...; if (error) throw error; ... } catch (error) { console.error }] *)
Definition fetchCoders : M State unit :=
  r <- call (select_profiles [eq_ "role" "coder"] (order_ "xp" false)) ;;
  match r with
  | Failure error => console_error "Error fetching coders:" error
  | Success data => modify (setCoders (JS.orEmpty data))
  end.

(** As [fetchCoders], with [finally { setLoading(false) }]. *)
Definition fetchTeams : M State unit :=
  r <- call (select_teams (order_ "created_at" false)) ;;
  match r with
  | Failure error => console_error "Error fetching teams:" error
  | Success data => modify (setTeams (JS.orEmpty data))
  end ;;
  modify (setLoading false).

Definition handleFollow (user : option User.t) (profileId : string) : M State unit :=
  match user with
  | None => ret tt
  | Some user =>
      r <- call (insert_follow {| Follow.follower_id := User.id user;
                                  Follow.following_id := profileId |}) ;;
      match r with
      | Failure error => console_error "Error following user:" error
      | Success _ => fetchCoders
      end
  end.

End Handlers.

(** [x?.toLowerCase().includes(term.toLowerCase())] on a nullable column:
    [undefined], hence falsy, when the column is null. *)
Definition optIncludes (x : option string) (term : string) : bool :=
  match x with
  | Some s => JS.includes (JS.toLowerCase s) (JS.toLowerCase term)
  | None => false
  end.

(** The predicate of [coders.filter(...)] in the "coders" tab. *)
Definition coderMatches (searchTerm : string) (coder : Profile.t) : bool :=
  (searchTerm =? "") ||
  JS.includes (JS.toLowerCase (Profile.full_name coder)) (JS.toLowerCase searchTerm) ||
  optIncludes (Profile.bio coder) searchTerm ||
  optIncludes (Profile.location coder) searchTerm.

(** The predicate of [teams.filter(...)] in the "teams" tab. *)
Definition teamMatches (searchTerm : string) (team : Team.t) : bool :=
  (searchTerm =? "") ||
  JS.includes (JS.toLowerCase (Team.name team)) (JS.toLowerCase searchTerm) ||
  optIncludes (Team.description team) searchTerm.

(** The cards of the two tabs; while [loading] the component returns the
    "Loading..." page and renders none. *)
Record View : Type := {
  coderCards : list Profile.t;
  teamCards : list Team.t
}.

Definition render (st : State) : View :=
  if loading st then {| coderCards := []; teamCards := [] |}
  else {| coderCards := filter (coderMatches (searchTerm st)) (coders st);
          teamCards := filter (teamMatches (searchTerm st)) (teams st) |}.

End Browse.

(** ** The Projects screen *)

Module Projects.

Record State : Type := {
  projects : list Project.t;
  myProjects : list Project.t;
  applications : list Application.t;
  loading : bool;
  isCreateDialogOpen : bool
}.

Definition initial : State :=
  {| projects := []; myProjects := []; applications := [];
     loading := true; isCreateDialogOpen := false |}.

Definition setProjects (v : list Project.t) (st : State) : State :=
  {| projects := v; myProjects := myProjects st; applications := applications st;
     loading := loading st; isCreateDialogOpen := isCreateDialogOpen st |}.

Definition setMyProjects (v : list Project.t) (st : State) : State :=
  {| projects := projects st; myProjects := v; applications := applications st;
     loading := loading st; isCreateDialogOpen := isCreateDialogOpen st |}.

Definition setApplications (v : list Application.t) (st : State) : State :=
  {| projects := projects st; myProjects := myProjects st; applications := v;
     loading := loading st; isCreateDialogOpen := isCreateDialogOpen st |}.

Definition setLoading (v : bool) (st : State) : State :=
  {| projects := projects st; myProjects := myProjects st;
     applications := applications st;
     loading := v; isCreateDialogOpen := isCreateDialogOpen st |}.

Definition setIsCreateDialogOpen (v : bool) (st : State) : State :=
  {| projects := projects st; myProjects := myProjects st;
     applications := applications st;
     loading := loading st; isCreateDialogOpen := v |}.

Section Handlers.

Context {B : Backend}.

(** The same text in src/pages/Projects.tsx and in the later revision of
    the screen that adds applications. *)
Definition fetchProjects : M State unit :=
  r <- call (select_projects [eq_ "status" "open"] (order_ "created_at" false)) ;;
  match r with
  | Failure error =>
      console_error "Error fetching projects:" error ;;
      toast_error "Failed to load projects"
  | Success data =>
      modify (setProjects data) ;;
      modify (setLoading false)
  end.

Definition fetchMyProjects (user : option User.t) : M State unit :=
  match user with
  | None => ret tt
  | Some user =>
      r <- call (select_projects [eq_ "hirer_id" (User.id user)]
                                 (order_ "created_at" false)) ;;
      match r with
      | Failure error => console_error "Error fetching my projects:" error
      | Success data => modify (setMyProjects data)
      end
  end.

Definition handleApplyToProject (user : option User.t) (projectId : string)
  : M State unit :=
  match user with
  | None => ret tt
  | Some user =>
      r <- call (insert_project_application
                   {| Application.project_id := projectId;
                      Application.coder_id := User.id user;
                      Application.message :=
                        "I would like to apply for this project." |}) ;;
      match r with
      | Failure error =>
          if PostgrestError.code error =? "23505"
          then toast_error "You have already applied to this project"
          else toast_error "Failed to apply to project"
      | Success _ =>
          toast_success "Application submitted successfully" ;;
          fetchProjects
      end
  end.

Definition fetchMyApplications (user : option User.t) : M State unit :=
  match user with
  | None => ret tt
  | Some user =>
      r <- call (select_applications_with_project
                   [eq_ "coder_id" (User.id user)] (order_ "created_at" false)) ;;
      match r with
      | Failure error => console_error "Error fetching applications:" error
      | Success data => modify (setApplications (JS.orEmpty data))
      end
  end.

Definition fetchProjectApplications (projectId : string)
  : M State (list Application.t) :=
  r <- call (select_applications_with_coder
               [eq_ "project_id" projectId] (order_ "created_at" false)) ;;
  match r with
  | Failure error =>
      console_error "Error fetching project applications:" error ;;
      ret []
  | Success data => ret (JS.orEmpty data)
  end.

(** What happens to the screen: the effect on [user, profile], the button
    of a project card, the form's [onSuccess], the dialog's
    [onOpenChange].  [user] and [role] are what [useAuth] gives at that
    moment. *)
Inductive Event : Type :=
| Mounted (user : option User.t) (role : option string)
| CardButtonClicked (user : option User.t) (role : option string) (projectId : string)
| ProjectPosted (user : option User.t)
| DialogOpenChanged (open : bool).

Definition hasRole (role : option string) (r : string) : bool :=
  match role with Some r' => r' =? r | None => false end.

Definition handle (ev : Event) : M State unit :=
  match ev with
  | Mounted user role =>
      match user with
      | Some _ =>
          fetchProjects ;;
          if hasRole role "hirer" then fetchMyProjects user
          else if hasRole role "coder" then fetchMyApplications user
          else ret tt
      | None => ret tt
      end
  | CardButtonClicked user role projectId =>
      if hasRole role "coder" then handleApplyToProject user projectId
      else ret tt
  | ProjectPosted user =>
      modify (setIsCreateDialogOpen false) ;;
      fetchMyProjects user
  | DialogOpenChanged open =>
      modify (setIsCreateDialogOpen open)
  end.

Fixpoint handleAll (evs : list Event) : M State unit :=
  match evs with
  | [] => ret tt
  | ev :: evs' => handle ev ;; handleAll evs'
  end.

End Handlers.

(** The "Browse Projects" tab: skeleton cards while [loading], then one
    card per element of [projects]. *)
Definition browseList (st : State) : list Project.t :=
  if loading st then [] else projects st.

(** Every project held in [projects] is open. *)
Definition OnlyOpen (st : State) : Prop :=
  forall p : Project.t, In p (projects st) -> Project.status p = "open".

End Projects.

(** ** A reference backend

    Modelled from the spec: the hosted data service itself (tables, the
    evaluation of [eq] and [order], the uniqueness constraint on
    applications, realtime delivery) is not part of this repository's
    sources.  The spec describes it as a store of rows with a
    query/insert contract in which an application is unique per
    (project, coder) pair and a duplicate is rejected by the store with a
    uniqueness violation.  [outage] scripts the failures of the service:
    each request consumes one entry, and [Some e] makes that request fail
    with [e] without touching any table. *)

Module Reference.

Record Database : Type := {
  conversations : list Conversation.t;
  messages : list Message.t;
  profiles : list Profile.t;
  teams : list Team.t;
  follows : list Follow.t;
  projects : list Project.t;
  project_applications : list Application.t;
  clock : N;
  outage : list (option PostgrestError.t)
}.

Definition empty : Database :=
  {| conversations := []; messages := []; profiles := []; teams := [];
     follows := []; projects := []; project_applications := [];
     clock := 0%N; outage := [] |}.

Definition withOutage (v : list (option PostgrestError.t)) (db : Database) :=
  {| conversations := conversations db; messages := messages db;
     profiles := profiles db; teams := teams db; follows := follows db;
     projects := projects db; project_applications := project_applications db;
     clock := clock db; outage := v |}.

Definition withMessages (v : list Message.t) (t : N) (db : Database) :=
  {| conversations := conversations db; messages := v;
     profiles := profiles db; teams := teams db; follows := follows db;
     projects := projects db; project_applications := project_applications db;
     clock := t; outage := outage db |}.

Definition withFollows (v : list Follow.t) (db : Database) :=
  {| conversations := conversations db; messages := messages db;
     profiles := profiles db; teams := teams db; follows := v;
     projects := projects db; project_applications := project_applications db;
     clock := clock db; outage := outage db |}.

Definition withApplications (v : list Application.t) (db : Database) :=
  {| conversations := conversations db; messages := messages db;
     profiles := profiles db; teams := teams db; follows := follows db;
     projects := projects db; project_applications := v;
     clock := clock db; outage := outage db |}.

(** *** Evaluating [eq] and [order] *)

Section Select.

Variable Row : Type.
Variable columnOf : string -> Row -> option string.
Variable key : string -> Row -> N.

Definition satisfies (f : Filter) (r : Row) : bool :=
  match columnOf (column f) r with
  | Some v => v =? value f
  | None => false
  end.

Definition matches (eq : list Filter) (r : Row) : bool :=
  forallb (fun f => satisfies f r) eq.

Definition before (o : Order) (x y : Row) : bool :=
  if ascending o then (key (by_ o) x <=? key (by_ o) y)%N
  else (key (by_ o) y <=? key (by_ o) x)%N.

Fixpoint place (o : Order) (x : Row) (l : list Row) : list Row :=
  match l with
  | [] => [x]
  | y :: l' => if before o x y then x :: l else y :: place o x l'
  end.

Fixpoint sortBy (o : Order) (l : list Row) : list Row :=
  match l with
  | [] => []
  | x :: l' => place o x (sortBy o l')
  end.

Definition select (eq : list Filter) (o : Order) (table : list Row) : list Row :=
  sortBy o (filter (matches eq) table).

End Select.

Definition messageColumn (c : string) (m : Message.t) : option string :=
  if c =? "id" then Some (Message.id m)
  else if c =? "conversation_id" then Some (Message.conversation_id m)
  else if c =? "sender_id" then Some (Message.sender_id m)
  else if c =? "content" then Some (Message.content m)
  else None.

Definition messageKey (c : string) (m : Message.t) : N :=
  if c =? "created_at" then Message.created_at m else 0%N.

Definition projectKey (c : string) (p : Project.t) : N :=
  if c =? "created_at" then Project.created_at p else 0%N.

Definition profileColumn (c : string) (p : Profile.t) : option string :=
  if c =? "id" then Some (Profile.id p)
  else if c =? "full_name" then Some (Profile.full_name p)
  else if c =? "role" then Some (Profile.role p)
  else None.

Definition profileKey (c : string) (p : Profile.t) : N :=
  if c =? "xp" then Profile.xp p
  else if c =? "followers_count" then Profile.followers_count p
  else 0%N.

Definition applicationColumn (c : string) (a : Application.t) : option string :=
  if c =? "project_id" then Some (Application.project_id a)
  else if c =? "coder_id" then Some (Application.coder_id a)
  else if c =? "message" then Some (Application.message a)
  else None.

Definition conversationKey (c : string) (v : Conversation.t) : N :=
  if c =? "updated_at" then Conversation.updated_at v else 0%N.

Definition teamKey (c : string) (t : Team.t) : N :=
  if c =? "created_at" then Team.created_at t else 0%N.

(** *** Errors of the service *)

(** [.single()] on a result that is not exactly one row. *)
Definition notSingle : PostgrestError.t :=
  {| PostgrestError.message := "JSON object requested, multiple (or no) rows returned";
     PostgrestError.code := "PGRST116" |}.

(** The unique (project_id, coder_id) constraint of project_applications. *)
Definition uniqueViolation : PostgrestError.t :=
  {| PostgrestError.message := "duplicate key value violates unique constraint";
     PostgrestError.code := "23505" |}.

Definition sameApplication (a a' : Application.t) : bool :=
  (Application.project_id a =? Application.project_id a') &&
  (Application.coder_id a =? Application.coder_id a').

(** The sender's display fields, joined from [profiles]. *)
Definition senderOf (db : Database) (sender_id : string) : Sender.t :=
  match find (fun p => Profile.id p =? sender_id) (profiles db) with
  | Some p => {| Sender.full_name := Profile.full_name p;
                 Sender.avatar_url := None |}
  | None => {| Sender.full_name := ""; Sender.avatar_url := None |}
  end.

Definition stored (db : Database) (row : NewMessage.t) : Message.t :=
  {| Message.id := NilEmpty.string_of_uint (N.to_uint (clock db));
     Message.conversation_id := NewMessage.conversation_id row;
     Message.sender_id := NewMessage.sender_id row;
     Message.content := NewMessage.content row;
     Message.created_at := clock db;
     Message.sender := senderOf db (NewMessage.sender_id row) |}.

(** *** Serving a request *)

Definition serve (q : Request) (db : Database) : Response (answer q) * Database :=
  match q as q0 return Response (answer q0) * Database with
  | select_conversations o =>
      (Success (Some (sortBy _ conversationKey o (conversations db))), db)
  | select_message_single eq =>
      match filter (matches _ messageColumn eq) (messages db) with
      | [m] => (Success m, db)
      | _ => (Failure notSingle, db)
      end
  | select_messages eq o =>
      (Success (select _ messageColumn messageKey eq o (messages db)), db)
  | insert_message row =>
      (Success tt,
       withMessages (messages db ++ [stored db row]) (N.succ (clock db)) db)
  | select_profiles eq o =>
      (Success (Some (select _ profileColumn profileKey eq o (profiles db))), db)
  | select_teams o =>
      (Success (Some (sortBy _ teamKey o (teams db))), db)
  | insert_follow row =>
      (Success tt, withFollows (follows db ++ [row]) db)
  | select_projects eq o =>
      (Success (select _ Project.column projectKey eq o (projects db)), db)
  | insert_project_application row =>
      if existsb (sameApplication row) (project_applications db)
      then (Failure uniqueViolation, db)
      else (Success tt, withApplications (project_applications db ++ [row]) db)
  | select_applications_with_project eq o
  | select_applications_with_coder eq o =>
      (Success (Some (filter (matches _ applicationColumn eq)
                             (project_applications db))), db)
  end.

Definition answerTo (q : Request) (db : Database) : Response (answer q) * Database :=
  match outage db with
  | Some e :: rest => (Failure e, withOutage rest db)
  | None :: rest => serve q (withOutage rest db)
  | [] => serve q db
  end.

Definition service : Backend := {| Srv := Database; respond := answerTo |}.

End Reference.

(** ** Sample data

    A small dataset and a few component states on which the handlers are
    run. *)

Module Sample.

Local Open Scope N_scope.

Definition alice : User.t := {| User.id := "u-alice" |}.
Definition bob : User.t := {| User.id := "u-bob" |}.

Definition participant (uid name : string) : Participant.t :=
  {| Participant.user_id := uid;
     Participant.profiles :=
       {| Participant.full_name := name;
          Participant.avatar_url := None;
          Participant.role := "coder" |} |}.

Definition conversation (cid : string) (t : timestamp)
  (ps : option (list Participant.t)) : Conversation.t :=
  {| Conversation.id := cid;
     Conversation.updated_at := t;
     Conversation.conversation_participants := ps;
     Conversation.messages := [] |}.

Definition withAlice : Conversation.t :=
  conversation "c1" 30 (Some [participant "u-alice" "Alice"; participant "u-bob" "Bob"]).
Definition withoutAlice : Conversation.t :=
  conversation "c2" 20 (Some [participant "u-bob" "Bob"; participant "u-carol" "Carol"]).
Definition noParticipants : Conversation.t :=
  conversation "c3" 10 None.

Definition message (mid cid uid text : string) (t : timestamp) : Message.t :=
  {| Message.id := mid;
     Message.conversation_id := cid;
     Message.sender_id := uid;
     Message.content := text;
     Message.created_at := t;
     Message.sender := {| Sender.full_name := ""; Sender.avatar_url := None |} |}.

Definition m1 : Message.t := message "m1" "c1" "u-bob" "hello" 1.
Definition m2 : Message.t := message "m2" "c1" "u-alice" "hi" 2.
Definition m3 : Message.t := message "m3" "c2" "u-bob" "ping" 3.

(** The change-feed payload announcing the insertion of a message. *)
Definition inserted (m : Message.t) : MessageRow.t :=
  {| MessageRow.id := Message.id m;
     MessageRow.conversation_id := Message.conversation_id m;
     MessageRow.sender_id := Message.sender_id m;
     MessageRow.content := Message.content m;
     MessageRow.created_at := Message.created_at m |}.

Definition project (pid status : string) (t : timestamp) : Project.t :=
  {| Project.id := pid;
     Project.title := pid;
     Project.description := "";
     Project.status := status;
     Project.hirer_id := "u-bob";
     Project.created_at := t |}.

Definition application (pid uid : string) : Application.t :=
  {| Application.project_id := pid;
     Application.coder_id := uid;
     Application.message := "I would like to apply for this project." |}.

Definition coder (uid name : string) (bio location : option string) : Profile.t :=
  {| Profile.id := uid;
     Profile.full_name := name;
     Profile.role := "coder";
     Profile.bio := bio;
     Profile.location := location;
     Profile.xp := 0;
     Profile.followers_count := 0 |}.

Definition team (tid name : string) (description : option string) : Team.t :=
  {| Team.id := tid;
     Team.name := name;
     Team.description := description;
     Team.created_at := 0;
     Team.owner := None;
     Team.team_members := [] |}.

(** Alice has already applied to project "p1". *)
Definition db : Reference.Database :=
  {| Reference.conversations := [withoutAlice; noParticipants; withAlice];
     Reference.messages := [m2; m3; m1];
     Reference.profiles :=
       [coder "u-alice" "Alice" (Some "React developer") None;
        coder "u-carol" "Carol" None (Some "Lisbon")];
     Reference.teams := [team "t1" "Pixel Forge" (Some "Design studio")];
     Reference.follows := [];
     Reference.projects :=
       [project "p1" "open" 1; project "p2" "in_progress" 2;
        project "p3" "completed" 3; project "p4" "cancelled" 4;
        project "p5" "open" 5];
     Reference.project_applications := [application "p1" "u-alice"];
     Reference.clock := 100;
     Reference.outage := [] |}.

Definition timeout : PostgrestError.t :=
  {| PostgrestError.message := "upstream request timeout";
     PostgrestError.code := "57014" |}.

(** The same dataset while the service fails the next request. *)
Definition down : Reference.Database := Reference.withOutage [Some timeout] db.

(** Conversation "c1" is open and shows its two messages. *)
Definition reading : Messages.State :=
  {| Messages.conversations := [withAlice];
     Messages.selectedConversation := Some "c1";
     Messages.messages := [m1; m2];
     Messages.newMessage := "";
     Messages.loading := false |}.

(** The same, with some text typed into the input field. *)
Definition typing (text : string) : Messages.State :=
  Messages.setNewMessage text reading.

Definition browsing (term skill : string) : Browse.State :=
  {| Browse.coders := Reference.profiles db;
     Browse.teams := Reference.teams db;
     Browse.loading := false;
     Browse.searchTerm := term;
     Browse.skillFilter := skill |}.

End Sample.

(** ** The rest of the Messages screen *)

(** The helpers of the conversation list (Messages.tsx, after the
    handlers), the edges of a trimmed string, and the events that drive
    the component. *)

Module MessagesView.

(** [p.user_id !== user?.id]: with nobody signed in [user?.id] is
    [undefined], which no [user_id] equals. *)
Definition isOther (user : option User.t) (p : Participant.t) : bool :=
  match user with
  | Some u => negb (Participant.user_id p =? User.id u)
  | None => true
  end.

Definition getConversationName (user : option User.t) (conv : Conversation.t)
  : string :=
  match Conversation.conversation_participants conv with
  | Some ps =>
      let otherParticipants := filter (isOther user) ps in
      let joined :=
        String.concat ", "
          (map (fun p => Participant.full_name (Participant.profiles p))
               otherParticipants) in
      if JS.not joined then "Unknown" else joined
  | None => "Unknown"
  end.

Definition getConversationAvatar (user : option User.t) (conv : Conversation.t)
  : option string :=
  match Conversation.conversation_participants conv with
  | Some ps =>
      match find (isOther user) ps with
      | Some otherParticipant =>
          Participant.avatar_url (Participant.profiles otherParticipant)
      | None => None
      end
  | None => None
  end.

(** The first, respectively last, code unit of a string is white space. *)
Definition startsWithWhiteSpace (s : string) : bool :=
  match s with
  | EmptyString => false
  | String c _ => JS.isWhiteSpace c
  end.

Fixpoint endsWithWhiteSpace (s : string) : bool :=
  match s with
  | EmptyString => false
  | String c EmptyString => JS.isWhiteSpace c
  | String _ s' => endsWithWhiteSpace s'
  end.

(** What happens to the component: a run of the effect on [user,
    selectedConversation] (at mount and after each change of either; it
    fetches the conversations and subscribes to the change feed only when
    somebody is signed in), a notification on that subscription, a click
    on a conversation, typing, and the send button or the Enter key. *)
Inductive Event : Type :=
| Mounted (user : option User.t)
| Notified (user : option User.t) (payload_new : MessageRow.t)
| ConversationClicked (conversationId : string)
| InputChanged (value : string)
| SendPressed (user : option User.t).

Section Handlers.

Context {B : Backend}.

Definition handle (ev : Event) : M Messages.State unit :=
  match ev with
  | Mounted user =>
      match user with
      | Some _ => Messages.fetchConversations user
      | None => ret tt
      end
  | Notified user payload_new =>
      match user with
      | Some _ => Messages.onMessageInsert payload_new
      | None => ret tt
      end
  | ConversationClicked conversationId =>
      Messages.selectConversation conversationId
  | InputChanged value =>
      modify (Messages.setNewMessage value)
  | SendPressed user =>
      Messages.sendMessage user
  end.

Fixpoint handleAll (evs : list Event) : M Messages.State unit :=
  match evs with
  | [] => ret tt
  | ev :: evs' => handle ev ;; handleAll evs'
  end.

End Handlers.

(** The message inserts among the outputs, and what a well-formed one
    carries: a conversation, and a text that is neither empty nor padded
    with white space. *)
Definition wellFormed (row : NewMessage.t) : bool :=
  negb (NewMessage.conversation_id row =? "") &&
  negb (NewMessage.content row =? "") &&
  negb (startsWithWhiteSpace (NewMessage.content row)) &&
  negb (endsWithWhiteSpace (NewMessage.content row)).

Definition sendsOnlyWellFormed (o : Output) : bool :=
  match o with
  | Sent (insert_message row) => wellFormed row
  | _ => true
  end.

End MessagesView.

(** ** The cards of the Projects and Browse screens *)

Module Cards.

(** A joined [skills(name, category)] row. *)
Record Skill : Type := { name : string; category : string }.

Inductive Badge : Type :=
| SkillBadge (name : string)
| MoreBadge (hidden : nat).    (* "+{hidden} more" *)

(** The skill badges of [ProjectCard]: nothing for a missing or empty
    list, else the first four names and, past four, the "+N more" badge. *)
Definition projectSkillBadges (project_skills : option (list Skill)) : list Badge :=
  match project_skills with
  | Some skills =>
      if (0 <? List.length skills)%nat then
        map (fun skill => SkillBadge (name skill)) (firstn 4 skills) ++
        (if (4 <? List.length skills)%nat
         then [MoreBadge (List.length skills - 4)] else [])
      else []
  | None => []
  end.

(** The skill badges of [CoderCard]: [user_skills?.slice(0, 3)] and
    [user_skills?.length > 3]. *)
Definition coderSkillBadges (user_skills : option (list Skill)) : list Badge :=
  match user_skills with
  | Some skills =>
      map (fun userSkill => SkillBadge (name userSkill)) (firstn 3 skills) ++
      (if (3 <? List.length skills)%nat
       then [MoreBadge (List.length skills - 3)] else [])
  | None => []
  end.

Definition shownSkills (badges : list Badge) : list string :=
  flat_map (fun b => match b with SkillBadge n => [n] | MoreBadge _ => [] end) badges.

Definition hiddenSkills (badges : list Badge) : nat :=
  list_sum (map (fun b => match b with SkillBadge _ => 0 | MoreBadge h => h end) badges).

(** A nullable amount, [number | null]; the budget columns hold whole
    amounts.  [isFalsy] is [!amount]: null or zero. *)
Definition isFalsy (amount : option Z) : bool :=
  match amount with
  | Some z => (z =? 0)%Z
  | None => true
  end.

(** [`${amount}`] *)
Definition show (amount : option Z) : string :=
  match amount with
  | Some z => NilZero.string_of_int (Z.to_int z)
  | None => "null"
  end.

Definition formatBudget (min max : option Z) : string :=
  if isFalsy min && isFalsy max then "Budget not specified"
  else if negb (isFalsy min) && negb (isFalsy max)
       then "$" ++ show min ++ " - $" ++ show max
  else if negb (isFalsy min) then "From $" ++ show min
  else if negb (isFalsy max) then "Up to $" ++ show max
  else "Budget not specified".

End Cards.

(** ** Mounting the Browse screen *)

Module BrowseEffects.

Section Handlers.

Context {B : Backend}.

(** [useEffect(() => { fetchCoders(); fetchTeams(); }, [])] *)
Definition mounted : M Browse.State unit :=
  Browse.fetchCoders ;; Browse.fetchTeams.

End Handlers.

End BrowseEffects.

(** ** Counting applications on the Projects screen *)

Module ProjectsEvents.

(** A click on a card's button by a signed-in coder. *)
Definition isCoderClick (ev : Projects.Event) : bool :=
  match ev with
  | Projects.CardButtonClicked (Some _) role _ => Projects.hasRole role "coder"
  | _ => false
  end.

Definition isApplicationInsert (o : Output) : bool :=
  match o with
  | Sent (insert_project_application _) => true
  | _ => false
  end.

End ProjectsEvents.

(** ** A backend out of reach *)

Module Offline.

(** Every request fails with [error]; there is no state to speak of. *)
Definition service (error : PostgrestError.t) : Backend :=
  {| Srv := unit; respond := fun q _ => (Failure error, tt) |}.

End Offline.

(** * Properties *)

(** ** Running handlers *)

(** Unfolds the monad down to the backend's answer. *)
Ltac unfold_handler :=
  unfold run, bind, ret, get, modify, console_error, toast_error,
    toast_success, emit, call; cbn [ui backend out fst snd].

(** Splits on the backend's answer to the request [q]. *)
Ltac answer_of q b :=
  let r := fresh "r" in
  let b' := fresh "b'" in
  let E := fresh "E" in
  cbn [ui backend out fst snd] in *;
  destruct (respond q b) as [r b'] eqn:E; cbn [fst snd] in *;
  destruct r; cbn [ui backend out fst snd] in *.

(** ** Strings *)

Lemma trimStart_whitespaceOnly (s : string) :
  JS.whitespaceOnly s = true -> JS.trimStart s = "".
Proof.
  induction s as [|c s IH]; cbn [JS.whitespaceOnly JS.trimStart].
  - reflexivity.
  - intros H. apply andb_true_iff in H as [Hc Hs].
    rewrite Hc. exact (IH Hs).
Qed.

Lemma trim_whitespaceOnly (s : string) :
  JS.whitespaceOnly s = true -> JS.trim s = "".
Proof.
  intros H. unfold JS.trim. rewrite (trimStart_whitespaceOnly s H). reflexivity.
Qed.

Lemma trim_nonempty (s : string) : JS.trim s <> "" -> s <> "".
Proof. intros H ->. apply H. reflexivity. Qed.

Lemma not_true_iff (s : string) : JS.not s = true <-> s = "".
Proof. unfold JS.not. apply String.eqb_eq. Qed.

Lemma not_false_iff (s : string) : JS.not s = false <-> s <> "".
Proof. unfold JS.not. apply String.eqb_neq. Qed.

(** ** Messages: sending *)

Section MessagesSending.

Context {B : Backend}.
Import Messages.

(** C4.  When the input field holds the empty string or white space only,
    [sendMessage] does nothing: the log stays empty (no request to the
    backend, no toast), the backend is not touched and the component's
    state, that is the message list, the selected conversation and the
    input field, is the one it started from. *)
Theorem sendMessage_blank_is_noop
  (user : option User.t) (st : State) (b : Srv) :
  JS.whitespaceOnly (newMessage st) = true ->
  run (sendMessage user) st b = (tt, world st b []).
Proof.
  intros H. unfold sendMessage. unfold_handler.
  rewrite (trim_whitespaceOnly _ H).
  destruct (selectedConversation st) as [selected|], user as [u|]; reflexivity.
Qed.

End MessagesSending.

(** C4 on three blanks typed into an open conversation, over the sample
    dataset. *)
Lemma sendMessage_blank_is_noop_witness :
  JS.whitespaceOnly (Messages.newMessage (Sample.typing "   ")) = true /\
  run (B := Reference.service) (Messages.sendMessage (Some Sample.alice))
      (Sample.typing "   ") Sample.db
  = (tt, world (B := Reference.service) (Sample.typing "   ") Sample.db []).
Proof.
  split.
  - reflexivity.
  - apply (sendMessage_blank_is_noop (B := Reference.service)). reflexivity.
Defined.

(** ** Messages: the conversation list *)

Lemma isParticipant_iff (user : User.t) (conv : Conversation.t) :
  Messages.isParticipant user conv = true <->
  exists ps p,
    Conversation.conversation_participants conv = Some ps /\
    In p ps /\ Participant.user_id p = User.id user.
Proof.
  unfold Messages.isParticipant.
  destruct (Conversation.conversation_participants conv) as [ps|]; split.
  - intros H. apply existsb_exists in H as (p & Hin & Heq).
    exists ps, p. repeat split; trivial. now apply String.eqb_eq.
  - intros (ps' & p & Hps & Hin & Heq). injection Hps as <-.
    apply existsb_exists. exists p. split; trivial. now apply String.eqb_eq.
  - discriminate.
  - intros (ps & p & Hps & _). discriminate.
Qed.

Section MessagesScreen.

Context {B : Backend}.
Import Messages.

(** C1.  For a signed-in user and any rows the backend answers the
    conversations query with, [fetchConversations] stores exactly the rows
    that pass the membership filter, in the order received, and turns the
    loading flag off; so a row of the answer is stored, and shown in the
    list pane, if and only if the user's id is the [user_id] of one of its
    participants. *)
Theorem fetchConversations_membership
  (user : User.t) (rows : list Conversation.t) (st : State) (b : Srv) :
  fst (respond (select_conversations (order_ "updated_at" false)) b)
    = Success (Some rows) ->
  let w := snd (run (fetchConversations (Some user)) st b) in
  conversations (ui w) = filter (isParticipant user) rows /\
  shownConversations (ui w) = conversations (ui w) /\
  forall conv : Conversation.t,
    In conv (shownConversations (ui w)) <->
    In conv rows /\
    exists ps p,
      Conversation.conversation_participants conv = Some ps /\
      In p ps /\ Participant.user_id p = User.id user.
Proof.
  intros H w. subst w. unfold fetchConversations. unfold_handler.
  answer_of (select_conversations (order_ "updated_at" false)) b;
    try discriminate.
  injection H as ->. unfold shownConversations. cbn.
  split; [reflexivity|]. split; [reflexivity|].
  intros conv. rewrite filter_In, isParticipant_iff. reflexivity.
Qed.

(** ** Messages: the change feed *)

(** C3.  The callback for an INSERT on [messages]: when the inserted row's
    [conversation_id] is the open conversation, exactly one request goes
    out, for the single row with that [id] joined with its sender's display
    fields, and the row that comes back is put at the end of the message
    list whatever the list already holds (if the re-fetch fails there is
    nothing to append and the list stays as it was); otherwise, also when
    no conversation is open, nothing is requested and nothing changes. *)
Theorem onMessageInsert_appends_when_open
  (payload : MessageRow.t) (st : State) (b : Srv) :
  let q := select_message_single [eq_ "id" (MessageRow.id payload)] in
  let w := snd (run (onMessageInsert payload) st b) in
  (selectedConversation st = Some (MessageRow.conversation_id payload) ->
   filter isRequest (out w) = [Sent q] /\
   match fst (respond q b) with
   | Success m => messages (ui w) = messages st ++ [m]
   | Failure _ => messages (ui w) = messages st
   end) /\
  (selectedConversation st <> Some (MessageRow.conversation_id payload) ->
   w = world st b []).
Proof.
  intros q w. subst q w. unfold onMessageInsert, fetchMessage, isOpen.
  unfold_handler. split.
  - intros ->. rewrite String.eqb_refl.
    answer_of (select_message_single [eq_ "id" (MessageRow.id payload)]) b;
      split; reflexivity.
  - intros Hsel. destruct (selectedConversation st) as [c|]; [|reflexivity].
    destruct (String.eqb_spec (MessageRow.conversation_id payload) c) as [Heq|];
      [congruence | reflexivity].
Qed.

(** ** Messages: switching conversations *)

(** C5, as the code has it.  [selectConversation] records the selection
    and asks once for the messages of that conversation; when the backend
    answers with rows the message list becomes exactly those rows, with
    nothing kept from the list displayed before; when the request fails
    the list displayed before stays, under the new selection, and the
    failure is logged and toasted. *)
Theorem selectConversation_replaces_on_success
  (conversationId : string) (st : State) (b : Srv) :
  let q := select_messages [eq_ "conversation_id" conversationId]
                           (order_ "created_at" true) in
  let w := snd (run (selectConversation conversationId) st b) in
  selectedConversation (ui w) = Some conversationId /\
  filter isRequest (out w) = [Sent q] /\
  match fst (respond q b) with
  | Success data => messages (ui w) = data /\ out w = [Sent q]
  | Failure error =>
      messages (ui w) = messages st /\
      out w = [Sent q; ConsoleError "Error loading messages:" error;
               ToastError "Failed to load messages"]
  end.
Proof.
  intros q w. subst q w. unfold selectConversation, loadMessages.
  unfold_handler.
  answer_of (select_messages [eq_ "conversation_id" conversationId]
                             (order_ "created_at" true)) b;
    repeat split; reflexivity.
Qed.

End MessagesScreen.

(** C1 on the sample dataset: of the three conversations of the store,
    Alice's list keeps the one she takes part in. *)
Lemma fetchConversations_membership_witness :
  let q := select_conversations (order_ "updated_at" false) in
  let rows := [Sample.withAlice; Sample.withoutAlice; Sample.noParticipants] in
  let w := snd (run (B := Reference.service)
                  (Messages.fetchConversations (Some Sample.alice))
                  Messages.initial Sample.db) in
  fst (respond (Backend := Reference.service) q Sample.db) = Success (Some rows) /\
  Messages.conversations (ui w) = [Sample.withAlice] /\
  (In Sample.withAlice (Messages.shownConversations (ui w)) <->
   In Sample.withAlice rows /\
   exists ps p,
     Conversation.conversation_participants Sample.withAlice = Some ps /\
     In p ps /\ Participant.user_id p = User.id Sample.alice).
Proof.
  intros q rows w.
  assert (H : fst (respond (Backend := Reference.service) q Sample.db)
              = Success (Some rows)) by reflexivity.
  destruct (fetchConversations_membership (B := Reference.service)
              Sample.alice rows Messages.initial Sample.db H)
    as (Hstored & _ & Hiff).
  split; [exact H|]. split; [exact Hstored|]. exact (Hiff Sample.withAlice).
Defined.

(** C3 on the sample dataset.  With conversation "c1" open and showing
    [m1; m2], the notification for [m1] appends [m1] a second time; the
    notification for [m3], a message of "c2", changes nothing. *)
Lemma onMessageInsert_appends_when_open_witness :
  let open := run (B := Reference.service)
                (Messages.onMessageInsert (Sample.inserted Sample.m1))
                Sample.reading Sample.db in
  let other := run (B := Reference.service)
                 (Messages.onMessageInsert (Sample.inserted Sample.m3))
                 Sample.reading Sample.db in
  Messages.messages (ui (snd open)) = [Sample.m1; Sample.m2; Sample.m1] /\
  snd other = world (B := Reference.service) Sample.reading Sample.db [].
Proof.
  intros open other.
  destruct (onMessageInsert_appends_when_open (B := Reference.service)
              (Sample.inserted Sample.m1) Sample.reading Sample.db)
    as [Hopen _].
  destruct (onMessageInsert_appends_when_open (B := Reference.service)
              (Sample.inserted Sample.m3) Sample.reading Sample.db)
    as [_ Hother].
  split.
  - exact (proj2 (Hopen eq_refl)).
  - apply Hother. discriminate.
Defined.

(** C5 as stated fails when the request for the new conversation's
    messages fails.  Conversation "c1" is open and shows its two messages;
    the user selects "c2" while the service is down: the selection moves to
    "c2", whose only message in the store is [m3], and the pane goes on
    showing the two messages of "c1". *)
Lemma selectConversation_failure_keeps_previous_list :
  let w := snd (run (B := Reference.service)
                  (Messages.selectConversation "c2") Sample.reading Sample.down) in
  let w' := snd (run (B := Reference.service)
                   (Messages.selectConversation "c2") Sample.reading Sample.db) in
  Messages.selectedConversation (ui w) = Some "c2" /\
  Messages.shownMessages (ui w) = [Sample.m1; Sample.m2] /\
  map Message.conversation_id (Messages.shownMessages (ui w)) = ["c1"; "c1"] /\
  Messages.shownMessages (ui w') = [Sample.m3].
Proof. repeat split; reflexivity. Qed.

(** ** Messages: creation order *)

Lemma chronological_app (l : list Message.t) (m : Message.t) :
  Messages.chronological (l ++ [m]) =
  Messages.chronological l &&
  (Message.created_at (last l m) <=? Message.created_at m)%N.
Proof.
  induction l as [|a l IH].
  - cbn. now rewrite N.leb_refl.
  - destruct l as [|a' l'].
    + cbn. now rewrite !andb_true_r.
    + change (Messages.chronological ((a :: a' :: l') ++ [m]))
        with ((Message.created_at a <=? Message.created_at a')%N &&
              Messages.chronological ((a' :: l') ++ [m])).
      rewrite IH.
      change (Messages.chronological (a :: a' :: l'))
        with ((Message.created_at a <=? Message.created_at a')%N &&
              Messages.chronological (a' :: l')).
      change (last (a :: a' :: l') m) with (last (a' :: l') m).
      now rewrite andb_assoc.
Qed.

(** The reference backend evaluates [order('created_at', ascending)] on
    messages: what it selects is in creation order. *)
Lemma place_chronological (m : Message.t) (l : list Message.t) :
  Messages.chronological l = true ->
  Messages.chronological
    (Reference.place _ Reference.messageKey (order_ "created_at" true) m l) = true.
Proof.
  induction l as [|a l IH]; intros Hl.
  - reflexivity.
  - cbn [Reference.place].
    change (Reference.before _ Reference.messageKey (order_ "created_at" true) m a)
      with (Message.created_at m <=? Message.created_at a)%N.
    destruct (N.leb_spec (Message.created_at m) (Message.created_at a)) as [Hle|Hlt].
    + change (((Message.created_at m <=? Message.created_at a)%N &&
               Messages.chronological (a :: l)) = true).
      rewrite Hl. now apply andb_true_iff, conj; [apply N.leb_le|].
    + assert (Hal : Messages.chronological l = true).
      { destruct l; [reflexivity|]. cbn in Hl. now apply andb_true_iff in Hl. }
      specialize (IH Hal).
      destruct l as [|a' l'].
      * cbn. rewrite andb_true_r. apply N.leb_le. lia.
      * cbn [Reference.place] in *.
        change (Reference.before _ Reference.messageKey
                  (order_ "created_at" true) m a')
          with (Message.created_at m <=? Message.created_at a')%N in *.
        destruct (Message.created_at m <=? Message.created_at a')%N.
        -- change (((Message.created_at a <=? Message.created_at m)%N &&
                    Messages.chronological (m :: a' :: l')) = true).
           rewrite IH, andb_true_r. apply N.leb_le. lia.
        -- cbn in Hl. apply andb_true_iff in Hl as [Haa' _].
           change (((Message.created_at a <=? Message.created_at a')%N &&
                    Messages.chronological
                      (a' :: Reference.place _ Reference.messageKey
                               (order_ "created_at" true) m l')) = true).
           now rewrite Haa', IH.
Qed.

Lemma select_messages_chronological (eq : list Filter) (table : list Message.t) :
  Messages.chronological
    (Reference.select _ Reference.messageColumn Reference.messageKey
       eq (order_ "created_at" true) table) = true.
Proof.
  unfold Reference.select.
  induction (filter (Reference.matches _ Reference.messageColumn eq) table)
    as [|m l IH].
  - reflexivity.
  - cbn [Reference.sortBy]. now apply place_chronological.
Qed.

Section MessagesOrder.

Context {B : Backend}.
Import Messages.

(** C6, as the code has it.  [loadMessages] asks for the messages of the
    conversation ordered by [created_at] ascending and stores the answer as
    received; [fetchMessage] puts the re-fetched row at the end of the list
    without looking at its [created_at], so the list after a realtime
    append is in creation order exactly when it was before and the
    appended row is not older than the last message displayed. *)
Theorem messages_in_creation_order_until_older_append
  (conversationId messageId : string) (st : State) (b : Srv) :
  let q := select_messages [eq_ "conversation_id" conversationId]
                           (order_ "created_at" true) in
  let loaded := snd (run (loadMessages conversationId) st b) in
  let q' := select_message_single [eq_ "id" messageId] in
  let appended := snd (run (fetchMessage messageId) st b) in
  filter isRequest (out loaded) = [Sent q] /\
  match fst (respond q b) with
  | Success data => messages (ui loaded) = data
  | Failure _ => messages (ui loaded) = messages st
  end /\
  match fst (respond q' b) with
  | Success m =>
      messages (ui appended) = messages st ++ [m] /\
      chronological (messages (ui appended)) =
      chronological (messages st) &&
      (Message.created_at (last (messages st) m) <=? Message.created_at m)%N
  | Failure _ => messages (ui appended) = messages st
  end.
Proof.
  intros q loaded q' appended. subst q loaded q' appended.
  unfold loadMessages, fetchMessage. unfold_handler.
  split; [|split].
  - answer_of (select_messages [eq_ "conversation_id" conversationId]
                               (order_ "created_at" true)) b; reflexivity.
  - answer_of (select_messages [eq_ "conversation_id" conversationId]
                               (order_ "created_at" true)) b; reflexivity.
  - answer_of (select_message_single [eq_ "id" messageId]) b.
    + split; [reflexivity|]. apply chronological_app.
    + reflexivity.
Qed.

(** ** Messages: the input field *)

(** C10.  A run of [sendMessage] either sends nothing and changes nothing
    (the trimmed input is empty, no conversation is selected or nobody is
    signed in), or sends exactly one insert carrying the trimmed input; in
    the latter case the input was not empty, and it is reset to the empty
    string when the insert succeeds, while on a failed insert it keeps its
    content and the error toast is shown. *)
Theorem sendMessage_clears_input_iff_inserted
  (user : option User.t) (st : State) (b : Srv) :
  let w := snd (run (sendMessage user) st b) in
  ((JS.trim (newMessage st) = "" \/ selectedConversation st = None \/
    selectedConversation st = Some "" \/ user = None) /\
   w = world st b [])
  \/
  (exists (u : User.t) (selected : string),
     user = Some u /\ selectedConversation st = Some selected /\
     newMessage st <> "" /\
     let q := insert_message
                {| NewMessage.conversation_id := selected;
                   NewMessage.sender_id := User.id u;
                   NewMessage.content := JS.trim (newMessage st) |} in
     filter isRequest (out w) = [Sent q] /\
     messages (ui w) = messages st /\
     selectedConversation (ui w) = selectedConversation st /\
     match fst (respond q b) with
     | Success _ =>
         newMessage (ui w) = "" /\ filter isToast (out w) = []
     | Failure error =>
         newMessage (ui w) = newMessage st /\
         out w = [Sent q; ConsoleError "Error sending message:" error;
                  ToastError "Failed to send message"]
     end).
Proof.
  intros w. subst w. unfold sendMessage. unfold_handler.
  destruct (selectedConversation st) as [selected|] eqn:Hsel;
    [|left; split; [right; left; reflexivity | reflexivity]].
  destruct user as [u|];
    [|left; split; [right; right; right; reflexivity | reflexivity]].
  destruct (JS.not (JS.trim (newMessage st))) eqn:Htrim.
  { left. apply not_true_iff in Htrim. split; [now left | reflexivity]. }
  destruct (JS.not selected) eqn:Hempty.
  { left. apply not_true_iff in Hempty. subst selected.
    split; [right; right; left; reflexivity | reflexivity]. }
  right. exists u, selected. cbn [orb].
  apply not_false_iff in Htrim.
  split; [reflexivity|]. split; [reflexivity|].
  split; [now apply trim_nonempty|].
  answer_of (insert_message
               {| NewMessage.conversation_id := selected;
                  NewMessage.sender_id := User.id u;
                  NewMessage.content := JS.trim (newMessage st) |}) b;
    cbn; rewrite ?Hsel; repeat split; reflexivity.
Qed.

End MessagesOrder.

(** [sendMessage] on the sample dataset, with " hey " typed into the open
    conversation "c1": the store takes the trimmed text and the field is
    emptied; with the service down the field keeps its text. *)
Example sendMessage_sent_and_failed :
  let sent := snd (run (B := Reference.service)
                     (Messages.sendMessage (Some Sample.alice))
                     (Sample.typing " hey ") Sample.db) in
  let failed := snd (run (B := Reference.service)
                       (Messages.sendMessage (Some Sample.alice))
                       (Sample.typing " hey ") Sample.down) in
  Messages.newMessage (ui sent) = "" /\
  map Message.content (Reference.messages (backend sent)) = ["hi"; "ping"; "hello"; "hey"] /\
  Messages.newMessage (ui failed) = " hey " /\
  filter isToast (out failed) = [ToastError "Failed to send message"] /\
  Reference.messages (backend failed) = Reference.messages Sample.db.
Proof. repeat split; reflexivity. Qed.

(** C6 as stated fails on a realtime append of an older row.  Alice opens
    "c1" and the store answers with [m1; m2], in creation order; the
    notification for [m1] is then delivered, the row is re-fetched and put
    last, and the pane shows [m1; m2; m1]. *)
Lemma realtime_append_breaks_creation_order :
  let loaded := ui (snd (run (B := Reference.service)
                           (Messages.selectConversation "c1")
                           Messages.initial Sample.db)) in
  let appended := ui (snd (run (B := Reference.service)
                             (Messages.onMessageInsert (Sample.inserted Sample.m1))
                             loaded Sample.db)) in
  Messages.chronological (Messages.shownMessages loaded) = true /\
  Messages.shownMessages appended = [Sample.m1; Sample.m2; Sample.m1] /\
  Messages.chronological (Messages.shownMessages appended) = false.
Proof. repeat split; reflexivity. Qed.

(** ** Projects: applying *)

Section ProjectsScreen.

Context {B : Backend}.
Import Projects.

(** C2.  When the insert into [project_applications] of a signed-in user
    fails: with code 23505 the only toast is the "already applied" error;
    with any other code the only toast is the generic error; in both cases
    there is no success toast, the failed insert is the only request the
    handler sends (it is not repeated and nothing else is written), the
    backend is left as its rejection of the insert left it and the
    component's state is unchanged. *)
Theorem handleApplyToProject_failure
  (user : User.t) (projectId : string) (error : PostgrestError.t)
  (st : State) (b : Srv) :
  let q := insert_project_application
             {| Application.project_id := projectId;
                Application.coder_id := User.id user;
                Application.message := "I would like to apply for this project." |} in
  fst (respond q b) = Failure error ->
  let w := snd (run (handleApplyToProject (Some user) projectId) st b) in
  (PostgrestError.code error = "23505" ->
   filter isToast (out w) = [ToastError "You have already applied to this project"]) /\
  (PostgrestError.code error <> "23505" ->
   filter isToast (out w) = [ToastError "Failed to apply to project"]) /\
  filter isToastSuccess (out w) = [] /\
  filter isRequest (out w) = [Sent q] /\
  backend w = snd (respond q b) /\
  ui w = st.
Proof.
  intros q H w. subst q w. unfold handleApplyToProject. unfold_handler.
  answer_of (insert_project_application
               {| Application.project_id := projectId;
                  Application.coder_id := User.id user;
                  Application.message := "I would like to apply for this project." |}) b;
    [discriminate|].
  injection H as ->.
  destruct (String.eqb_spec (PostgrestError.code error) "23505") as [Hc|Hc];
    cbn; repeat split; try reflexivity; intros Hc'; congruence.
Qed.

(** ** Projects: the browse list *)

Lemma fetchProjects_only_open (w : World State) :
  EvaluatesEq B -> OnlyOpen (ui w) -> OnlyOpen (ui (snd (fetchProjects w))).
Proof.
  intros HB Hw. unfold fetchProjects. unfold_handler.
  pose proof (HB [eq_ "status" "open"] (order_ "created_at" false) (backend w))
    as Hrows.
  destruct (respond (select_projects [eq_ "status" "open"]
                                     (order_ "created_at" false)) (backend w))
    as [[rows|error] b'] eqn:E; cbn [fst snd ui] in *.
  - intros p Hp. cbn in Hp.
    specialize (Hrows rows eq_refl p (eq_ "status" "open") Hp (or_introl eq_refl)).
    cbn in Hrows. now injection Hrows.
  - exact Hw.
Qed.

Lemma fetchMyProjects_projects (user : option User.t) (w : World State) :
  projects (ui (snd (fetchMyProjects user w))) = projects (ui w).
Proof.
  unfold fetchMyProjects. destruct user as [u|]; [|reflexivity].
  unfold_handler.
  now destruct (respond (select_projects [eq_ "hirer_id" (User.id u)]
                                         (order_ "created_at" false)) (backend w))
    as [[rows|error] b'].
Qed.

Lemma fetchMyApplications_projects (user : option User.t) (w : World State) :
  projects (ui (snd (fetchMyApplications user w))) = projects (ui w).
Proof.
  unfold fetchMyApplications. destruct user as [u|]; [|reflexivity].
  unfold_handler.
  now destruct (respond (select_applications_with_project
                           [eq_ "coder_id" (User.id u)]
                           (order_ "created_at" false)) (backend w))
    as [[rows|error] b'].
Qed.

Lemma handleApplyToProject_only_open
  (user : option User.t) (projectId : string) (w : World State) :
  EvaluatesEq B -> OnlyOpen (ui w) ->
  OnlyOpen (ui (snd (handleApplyToProject user projectId w))).
Proof.
  intros HB Hw. unfold handleApplyToProject.
  destruct user as [u|]; [|exact Hw].
  unfold bind at 1. unfold call.
  destruct (respond _ (backend w)) as [[data|error] b']; cbn [ui backend out].
  - unfold bind, toast_success, emit. cbn [ui backend out].
    apply fetchProjects_only_open; [exact HB | exact Hw].
  - unfold toast_error, emit.
    now destruct (PostgrestError.code error =? "23505").
Qed.

Lemma handle_only_open (ev : Event) (w : World State) :
  EvaluatesEq B -> OnlyOpen (ui w) -> OnlyOpen (ui (snd (handle ev w))).
Proof.
  intros HB Hw. destruct ev as [user role|user role projectId|user|open];
    cbn [handle].
  - destruct user as [u|]; [|exact Hw].
    unfold bind at 1.
    pose proof (fetchProjects_only_open w HB Hw) as H1.
    destruct (fetchProjects w) as [[] w1]; cbn [snd] in *.
    destruct (hasRole role "hirer").
    + unfold OnlyOpen. now rewrite fetchMyProjects_projects.
    + destruct (hasRole role "coder").
      * unfold OnlyOpen. now rewrite fetchMyApplications_projects.
      * exact H1.
  - destruct (hasRole role "coder"); [|exact Hw].
    now apply handleApplyToProject_only_open.
  - unfold bind, modify. cbn [ui backend out].
    unfold OnlyOpen. now rewrite fetchMyProjects_projects.
  - exact Hw.
Qed.

Lemma handleAll_only_open (evs : list Event) (w : World State) :
  EvaluatesEq B -> OnlyOpen (ui w) -> OnlyOpen (ui (snd (handleAll evs w))).
Proof.
  intros HB. revert w. induction evs as [|ev evs IH]; intros w Hw.
  - exact Hw.
  - cbn [handleAll]. unfold bind.
    pose proof (handle_only_open ev w HB Hw) as H1.
    destruct (handle ev w) as [[] w1]. now apply IH.
Qed.

(** C8.  [fetchProjects] sends one request: the projects whose [status]
    equals 'open', newest first.  Hence, over a backend that evaluates the
    filter, whatever the stored projects are and whatever happens to the
    screen from its initial state, every card of the "Browse Projects" tab
    is an open project: none is in progress, completed or cancelled. *)
Theorem browse_list_only_open (evs : list Event) (st : State) (b : Srv) :
  EvaluatesEq B ->
  filter isRequest (out (snd (run fetchProjects st b)))
    = [Sent (select_projects [eq_ "status" "open"] (order_ "created_at" false))] /\
  forall p : Project.t,
    In p (browseList (ui (snd (run (handleAll evs) initial b)))) ->
    Project.status p = "open" /\
    Project.status p <> "in_progress" /\
    Project.status p <> "completed" /\
    Project.status p <> "cancelled".
Proof.
  intros HB. split.
  - unfold fetchProjects. unfold_handler.
    answer_of (select_projects [eq_ "status" "open"] (order_ "created_at" false)) b;
      reflexivity.
  - intros p Hp.
    assert (Hopen : Project.status p = "open").
    { unfold browseList in Hp.
      destruct (loading _); [destruct Hp|].
      revert p Hp. apply handleAll_only_open; [exact HB|].
      intros p []. }
    rewrite Hopen. repeat split; discriminate.
Qed.

End ProjectsScreen.

(** The reference backend evaluates [eq] on projects. *)

Lemma In_place {Row : Type} (key : string -> Row -> N) (o : Order)
  (x y : Row) (l : list Row) :
  In y (Reference.place Row key o x l) -> y = x \/ In y l.
Proof.
  induction l as [|a l IH]; cbn [Reference.place].
  - intros [<-|[]]. now left.
  - destruct (Reference.before Row key o x a).
    + intros [<-|H]; [now left | now right].
    + intros [<-|H]; [right; now left|].
      destruct (IH H) as [->|H']; [now left | right; now right].
Qed.

Lemma In_sortBy {Row : Type} (key : string -> Row -> N) (o : Order)
  (y : Row) (l : list Row) :
  In y (Reference.sortBy Row key o l) -> In y l.
Proof.
  induction l as [|a l IH]; cbn [Reference.sortBy].
  - intros [].
  - intros H. apply In_place in H as [->|H]; [now left | right; now apply IH].
Qed.

Lemma serve_select_projects (eq : list Filter) (o : Order)
  (db : Reference.Database) (rows : list Project.t) (p : Project.t) (f : Filter) :
  fst (Reference.serve (select_projects eq o) db) = Success rows ->
  In p rows -> In f eq -> Project.column (column f) p = Some (value f).
Proof.
  cbn [Reference.serve fst]. intros H Hp Hf. injection H as <-.
  unfold Reference.select in Hp. apply In_sortBy in Hp.
  apply filter_In in Hp as [_ Hm].
  unfold Reference.matches in Hm. rewrite forallb_forall in Hm.
  specialize (Hm f Hf). unfold Reference.satisfies in Hm.
  destruct (Project.column (column f) p) as [v|]; [|discriminate].
  apply String.eqb_eq in Hm. now subst v.
Qed.

Lemma reference_evaluates_eq : EvaluatesEq Reference.service.
Proof.
  intros eq o db rows H p f Hp Hf.
  cbn [respond Reference.service] in H. unfold Reference.answerTo in H.
  destruct (Reference.outage db) as [|[e|] rest].
  - exact (serve_select_projects eq o db rows p f H Hp Hf).
  - discriminate.
  - exact (serve_select_projects eq o _ rows p f H Hp Hf).
Qed.

(** C2 on the sample dataset.  Alice, who has applied to "p1", applies
    again: the store rejects the duplicate, she is told so, and the table
    still holds her one application.  She then applies to "p5" while the
    service is down and gets the generic error. *)
Lemma handleApplyToProject_failure_witness :
  let insert pid := insert_project_application (Sample.application pid "u-alice") in
  let again := snd (run (B := Reference.service)
                      (Projects.handleApplyToProject (Some Sample.alice) "p1")
                      Projects.initial Sample.db) in
  let unlucky := snd (run (B := Reference.service)
                        (Projects.handleApplyToProject (Some Sample.alice) "p5")
                        Projects.initial Sample.down) in
  (fst (respond (Backend := Reference.service) (insert "p1") Sample.db)
     = Failure Reference.uniqueViolation /\
   filter isToast (out again)
     = [ToastError "You have already applied to this project"] /\
   filter isRequest (out again) = [Sent (insert "p1")] /\
   Reference.project_applications (backend again)
     = [Sample.application "p1" "u-alice"]) /\
  (fst (respond (Backend := Reference.service) (insert "p5") Sample.down)
     = Failure Sample.timeout /\
   filter isToast (out unlucky) = [ToastError "Failed to apply to project"] /\
   filter isToastSuccess (out unlucky) = [] /\
   Reference.project_applications (backend unlucky)
     = [Sample.application "p1" "u-alice"]).
Proof.
  intros insert again unlucky.
  assert (H1 : fst (respond (Backend := Reference.service) (insert "p1") Sample.db)
               = Failure Reference.uniqueViolation) by reflexivity.
  assert (H5 : fst (respond (Backend := Reference.service) (insert "p5") Sample.down)
               = Failure Sample.timeout) by reflexivity.
  destruct (handleApplyToProject_failure (B := Reference.service)
              Sample.alice "p1" Reference.uniqueViolation
              Projects.initial Sample.db H1)
    as (Hdup & _ & _ & Hreq & Hsrv & _).
  destruct (handleApplyToProject_failure (B := Reference.service)
              Sample.alice "p5" Sample.timeout
              Projects.initial Sample.down H5)
    as (_ & Hother & Hnone & _ & Hsrv' & _).
  split; [split; [exact H1|split; [exact (Hdup eq_refl)|split; [exact Hreq|]]]
         |split; [exact H5|split; [apply Hother; discriminate|split; [exact Hnone|]]]].
  - fold again in Hsrv. rewrite Hsrv. reflexivity.
  - fold unlucky in Hsrv'. rewrite Hsrv'. reflexivity.
Defined.

(** C8 on the sample dataset, which holds projects in all four states:
    Alice opens the screen and applies to "p5"; the tab lists the two open
    projects. *)
Lemma browse_list_only_open_witness :
  let evs := [Projects.Mounted (Some Sample.alice) (Some "coder");
              Projects.CardButtonClicked (Some Sample.alice) (Some "coder") "p5"] in
  let w := snd (run (B := Reference.service) (Projects.handleAll evs)
                  Projects.initial Sample.db) in
  EvaluatesEq Reference.service /\
  map Project.id (Projects.browseList (ui w)) = ["p5"; "p1"] /\
  forall p : Project.t,
    In p (Projects.browseList (ui w)) ->
    Project.status p = "open" /\
    Project.status p <> "in_progress" /\
    Project.status p <> "completed" /\
    Project.status p <> "cancelled".
Proof.
  intros evs w.
  split; [exact reference_evaluates_eq|]. split; [reflexivity|].
  exact (proj2 (browse_list_only_open (B := Reference.service)
                  evs Projects.initial Sample.db reference_evaluates_eq)).
Defined.

(** ** Browse: the cards *)

Lemma coderMatches_iff (term : string) (coder : Profile.t) :
  Browse.coderMatches term coder = true <->
  term = "" \/
  JS.includes (JS.toLowerCase (Profile.full_name coder)) (JS.toLowerCase term) = true \/
  (exists bio, Profile.bio coder = Some bio /\
     JS.includes (JS.toLowerCase bio) (JS.toLowerCase term) = true) \/
  (exists location, Profile.location coder = Some location /\
     JS.includes (JS.toLowerCase location) (JS.toLowerCase term) = true).
Proof.
  unfold Browse.coderMatches, Browse.optIncludes.
  rewrite !orb_true_iff, String.eqb_eq.
  destruct (Profile.bio coder) as [bio|], (Profile.location coder) as [location|];
    split; intros H.
  all: repeat match goal with
         | H : _ \/ _ |- _ => destruct H
         | H : exists _, _ |- _ => destruct H as (? & ? & ?)
         | H : Some _ = Some _ |- _ => injection H as <-
         end; try discriminate; eauto 8.
Qed.

Lemma teamMatches_iff (term : string) (team : Team.t) :
  Browse.teamMatches term team = true <->
  term = "" \/
  JS.includes (JS.toLowerCase (Team.name team)) (JS.toLowerCase term) = true \/
  (exists description, Team.description team = Some description /\
     JS.includes (JS.toLowerCase description) (JS.toLowerCase term) = true).
Proof.
  unfold Browse.teamMatches, Browse.optIncludes.
  rewrite !orb_true_iff, String.eqb_eq.
  destruct (Team.description team) as [description|]; split; intros H.
  all: repeat match goal with
         | H : _ \/ _ |- _ => destruct H
         | H : exists _, _ |- _ => destruct H as (? & ? & ?)
         | H : Some _ = Some _ |- _ => injection H as <-
         end; try discriminate; eauto 8.
Qed.

(** C9.  Two states of the Browse screen that agree on the fetched coders
    and teams, the loading flag and the search term render the same cards,
    whatever their [skillFilter]s; a fetched coder gets a card exactly when
    the search term is empty or occurs, case-insensitively, in the name,
    the bio or the location, and a fetched team when it is empty or occurs
    in the name or the description. *)
Theorem skillFilter_does_not_affect_cards (s1 s2 : Browse.State) :
  Browse.coders s1 = Browse.coders s2 ->
  Browse.teams s1 = Browse.teams s2 ->
  Browse.loading s1 = Browse.loading s2 ->
  Browse.searchTerm s1 = Browse.searchTerm s2 ->
  Browse.render s1 = Browse.render s2 /\
  (forall coder : Profile.t,
     In coder (Browse.coderCards (Browse.render s1)) <->
     Browse.loading s1 = false /\ In coder (Browse.coders s1) /\
     (Browse.searchTerm s1 = "" \/
      JS.includes (JS.toLowerCase (Profile.full_name coder))
                  (JS.toLowerCase (Browse.searchTerm s1)) = true \/
      (exists bio, Profile.bio coder = Some bio /\
         JS.includes (JS.toLowerCase bio)
                     (JS.toLowerCase (Browse.searchTerm s1)) = true) \/
      (exists location, Profile.location coder = Some location /\
         JS.includes (JS.toLowerCase location)
                     (JS.toLowerCase (Browse.searchTerm s1)) = true))) /\
  (forall team : Team.t,
     In team (Browse.teamCards (Browse.render s1)) <->
     Browse.loading s1 = false /\ In team (Browse.teams s1) /\
     (Browse.searchTerm s1 = "" \/
      JS.includes (JS.toLowerCase (Team.name team))
                  (JS.toLowerCase (Browse.searchTerm s1)) = true \/
      (exists description, Team.description team = Some description /\
         JS.includes (JS.toLowerCase description)
                     (JS.toLowerCase (Browse.searchTerm s1)) = true))).
Proof.
  intros Hc Ht Hl Hs. split; [|split].
  - unfold Browse.render. now rewrite Hc, Ht, Hl, Hs.
  - intros coder. unfold Browse.render.
    destruct (Browse.loading s1); cbn [Browse.coderCards].
    + split; [intros [] | intros [H _]; discriminate].
    + rewrite filter_In, coderMatches_iff. tauto.
  - intros team. unfold Browse.render.
    destruct (Browse.loading s1); cbn [Browse.teamCards].
    + split; [intros [] | intros [H _]; discriminate].
    + rewrite filter_In, teamMatches_iff. tauto.
Qed.

(** C9 on the sample dataset: searching "LI" with the dropdown on "All
    Skills" and on "React" gives the same cards, Alice (by name) and Carol
    (by location), and no team. *)
Lemma skillFilter_does_not_affect_cards_witness :
  let s1 := Sample.browsing "LI" "all" in
  let s2 := Sample.browsing "LI" "react" in
  Browse.skillFilter s1 <> Browse.skillFilter s2 /\
  Browse.render s1 = Browse.render s2 /\
  map Profile.full_name (Browse.coderCards (Browse.render s2)) = ["Alice"; "Carol"] /\
  Browse.teamCards (Browse.render s2) = [].
Proof.
  intros s1 s2.
  destruct (skillFilter_does_not_affect_cards s1 s2
              eq_refl eq_refl eq_refl eq_refl) as [Hsame _].
  split; [discriminate|]. split; [exact Hsame|]. split; reflexivity.
Defined.

(** ** Failures of remote calls *)

Section Failures.

Context {B : Backend}.

(** C7, as the code has it.  Whatever error a remote call fails with, the
    handler that made the call sends no other request, returns nothing but
    [undefined] (an empty list for [fetchProjectApplications]) and reacts
    on the spot: [fetchConversations], [loadMessages], [sendMessage] and
    [fetchProjects] log to the console and show their generic error toast;
    [fetchMessage], [fetchCoders], [fetchTeams], [handleFollow],
    [fetchMyProjects], [fetchMyApplications] and [fetchProjectApplications]
    log to the console and show no toast; [handleApplyToProject] shows a
    toast and logs nothing, and is the only one whose message depends on
    the error: the "already applied" text for code 23505, the generic text
    otherwise. *)
Theorem failure_handling
  (user : User.t) (error : PostgrestError.t) (id selected : string)
  (ms : Messages.State) (bs : Browse.State) (ps : Projects.State) (b : Srv) :
  let fails q := fst (respond q b) = Failure error in
  let reaction {S A} (m : M S A) (st : S) := out (snd (run m st b)) in
  let after {S A} (m : M S A) (st : S) := ui (snd (run m st b)) in
  (* Messages *)
  (let q := select_message_single [eq_ "id" id] in
   fails q ->
   reaction (Messages.fetchMessage id) ms
     = [Sent q; ConsoleError "Error fetching message:" error] /\
   after (Messages.fetchMessage id) ms = ms) /\
  (let q := select_conversations (order_ "updated_at" false) in
   fails q ->
   reaction (Messages.fetchConversations (Some user)) ms
     = [Sent q; ConsoleError "Error fetching conversations:" error;
        ToastError "Failed to load conversations"] /\
   after (Messages.fetchConversations (Some user)) ms = ms) /\
  (let q := select_messages [eq_ "conversation_id" id] (order_ "created_at" true) in
   fails q ->
   reaction (Messages.loadMessages id) ms
     = [Sent q; ConsoleError "Error loading messages:" error;
        ToastError "Failed to load messages"] /\
   after (Messages.loadMessages id) ms = ms) /\
  (let q := insert_message
              {| NewMessage.conversation_id := selected;
                 NewMessage.sender_id := User.id user;
                 NewMessage.content := JS.trim (Messages.newMessage ms) |} in
   Messages.selectedConversation ms = Some selected -> selected <> "" ->
   JS.trim (Messages.newMessage ms) <> "" ->
   fails q ->
   reaction (Messages.sendMessage (Some user)) ms
     = [Sent q; ConsoleError "Error sending message:" error;
        ToastError "Failed to send message"] /\
   after (Messages.sendMessage (Some user)) ms = ms) /\
  (* Browse *)
  (let q := select_profiles [eq_ "role" "coder"] (order_ "xp" false) in
   fails q ->
   reaction Browse.fetchCoders bs
     = [Sent q; ConsoleError "Error fetching coders:" error] /\
   after Browse.fetchCoders bs = bs) /\
  (let q := select_teams (order_ "created_at" false) in
   fails q ->
   reaction Browse.fetchTeams bs
     = [Sent q; ConsoleError "Error fetching teams:" error] /\
   after Browse.fetchTeams bs = Browse.setLoading false bs) /\
  (let q := insert_follow {| Follow.follower_id := User.id user;
                             Follow.following_id := id |} in
   fails q ->
   reaction (Browse.handleFollow (Some user) id) bs
     = [Sent q; ConsoleError "Error following user:" error] /\
   after (Browse.handleFollow (Some user) id) bs = bs) /\
  (* Projects *)
  (let q := select_projects [eq_ "status" "open"] (order_ "created_at" false) in
   fails q ->
   reaction Projects.fetchProjects ps
     = [Sent q; ConsoleError "Error fetching projects:" error;
        ToastError "Failed to load projects"] /\
   after Projects.fetchProjects ps = ps) /\
  (let q := select_projects [eq_ "hirer_id" (User.id user)]
                            (order_ "created_at" false) in
   fails q ->
   reaction (Projects.fetchMyProjects (Some user)) ps
     = [Sent q; ConsoleError "Error fetching my projects:" error] /\
   after (Projects.fetchMyProjects (Some user)) ps = ps) /\
  (let q := insert_project_application
              {| Application.project_id := id;
                 Application.coder_id := User.id user;
                 Application.message := "I would like to apply for this project." |} in
   fails q ->
   reaction (Projects.handleApplyToProject (Some user) id) ps
     = [Sent q;
        ToastError (if PostgrestError.code error =? "23505"
                    then "You have already applied to this project"
                    else "Failed to apply to project")] /\
   after (Projects.handleApplyToProject (Some user) id) ps = ps) /\
  (let q := select_applications_with_project [eq_ "coder_id" (User.id user)]
                                             (order_ "created_at" false) in
   fails q ->
   reaction (Projects.fetchMyApplications (Some user)) ps
     = [Sent q; ConsoleError "Error fetching applications:" error] /\
   after (Projects.fetchMyApplications (Some user)) ps = ps) /\
  (let q := select_applications_with_coder [eq_ "project_id" id]
                                           (order_ "created_at" false) in
   fails q ->
   reaction (Projects.fetchProjectApplications id) ps
     = [Sent q; ConsoleError "Error fetching project applications:" error] /\
   after (Projects.fetchProjectApplications id) ps = ps /\
   fst (run (Projects.fetchProjectApplications id) ps b) = []).
Proof.
  cbv zeta.
  repeat match goal with |- _ /\ _ => split end.
  all: repeat match goal with |- _ -> _ => intro end.
  all: unfold Messages.fetchMessage, Messages.fetchConversations,
         Messages.loadMessages, Messages.sendMessage,
         Browse.fetchCoders, Browse.fetchTeams, Browse.handleFollow,
         Projects.fetchProjects, Projects.fetchMyProjects,
         Projects.handleApplyToProject, Projects.fetchMyApplications,
         Projects.fetchProjectApplications; unfold_handler.
  all: repeat match goal with
         | H : Messages.selectedConversation _ = Some _ |- _ => rewrite H; clear H
         | H : JS.trim _ <> "" |- _ => apply not_false_iff in H; rewrite H; clear H
         | H : _ <> "" |- _ => apply not_false_iff in H; rewrite H; clear H
         end; cbn [orb].
  all: match goal with
       | H : fst (respond ?q ?b0) = Failure _ |- _ =>
           let r := fresh "r" in
           cbn [ui backend out fst snd];
           destruct (respond q b0) as [r ?]; cbn [fst] in H; subst r;
           cbn [ui backend out fst snd]
       end.
  all: try (repeat split; reflexivity).
  destruct (PostgrestError.code error =? "23505"); split; reflexivity.
Qed.

End Failures.

(** C7 as stated fails for the handlers that log without a toast, and for
    the one that toasts without logging.  The service is down: the re-fetch
    of a message fails, which is logged and not toasted; Alice's
    application to "p5" fails, which is toasted and not logged. *)
Lemma failure_without_toast_or_without_log :
  let refetch := select_message_single [eq_ "id" "m1"] in
  let apply := insert_project_application (Sample.application "p5" "u-alice") in
  let w := snd (run (B := Reference.service) (Messages.fetchMessage "m1")
                  Sample.reading Sample.down) in
  let w' := snd (run (B := Reference.service)
                   (Projects.handleApplyToProject (Some Sample.alice) "p5")
                   Projects.initial Sample.down) in
  (fst (respond (Backend := Reference.service) refetch Sample.down)
     = Failure Sample.timeout /\
   out w = [Sent refetch; ConsoleError "Error fetching message:" Sample.timeout] /\
   filter isToast (out w) = []) /\
  (fst (respond (Backend := Reference.service) apply Sample.down)
     = Failure Sample.timeout /\
   out w' = [Sent apply; ToastError "Failed to apply to project"] /\
   filter isConsoleError (out w') = []).
Proof. repeat split; reflexivity. Qed.

(** C7 with the service down, for Alice with "c1" open and "hey" typed:
    how many console lines and how many toasts each of the twelve calls
    produces, in the order of the theorem. *)
Lemma failure_handling_witness :
  let tally {S A} (m : M (B := Reference.service) S A) (st : S) :=
    let o := out (snd (run m st Sample.down)) in
    (List.length (filter isRequest o),
     List.length (filter isConsoleError o),
     List.length (filter isToast o)) in
  let ms := Sample.typing "hey" in
  let bs := Sample.browsing "" "all" in
  let ps := Projects.initial in
  let me := Some Sample.alice in
  (forall q, fst (respond (Backend := Reference.service) q Sample.down)
             = Failure Sample.timeout) /\
  [ tally (Messages.fetchMessage "p1") ms;
    tally (Messages.fetchConversations me) ms;
    tally (Messages.loadMessages "p1") ms;
    tally (Messages.sendMessage me) ms;
    tally Browse.fetchCoders bs;
    tally Browse.fetchTeams bs;
    tally (Browse.handleFollow me "p1") bs;
    tally Projects.fetchProjects ps;
    tally (Projects.fetchMyProjects me) ps;
    tally (Projects.handleApplyToProject me "p1") ps;
    tally (Projects.fetchMyApplications me) ps;
    tally (Projects.fetchProjectApplications "p1") ps ]
  = [ (1, 1, 0); (1, 1, 1); (1, 1, 1); (1, 1, 1);
      (1, 1, 0); (1, 1, 0); (1, 1, 0);
      (1, 1, 1); (1, 1, 0); (1, 0, 1); (1, 1, 0); (1, 1, 0) ].
Proof.
  intros tally ms bs ps me.
  assert (Hdown : forall q, fst (respond (Backend := Reference.service) q Sample.down)
                            = Failure Sample.timeout) by (intros q; reflexivity).
  split; [exact Hdown|].
  pose proof (failure_handling (B := Reference.service)
                Sample.alice Sample.timeout "p1" "c1" ms bs ps Sample.down) as H.
  cbv zeta in H.
  destruct H as (H1 & H2 & H3 & H4 & H5 & H6 & H7 & H8 & H9 & H10 & H11 & H12).
  destruct (H1 (Hdown _)) as [E1 _].
  destruct (H2 (Hdown _)) as [E2 _].
  destruct (H3 (Hdown _)) as [E3 _].
  assert (Hc : "c1" <> "") by discriminate.
  assert (Ht : JS.trim (Messages.newMessage ms) <> "") by discriminate.
  destruct (H4 eq_refl Hc Ht (Hdown _)) as [E4 _].
  destruct (H5 (Hdown _)) as [E5 _].
  destruct (H6 (Hdown _)) as [E6 _].
  destruct (H7 (Hdown _)) as [E7 _].
  destruct (H8 (Hdown _)) as [E8 _].
  destruct (H9 (Hdown _)) as [E9 _].
  destruct (H10 (Hdown _)) as [E10 _].
  destruct (H11 (Hdown _)) as [E11 _].
  destruct (H12 (Hdown _)) as [E12 _].
  unfold tally, me.
  rewrite E1, E2, E3, E4, E5, E6, E7, E8, E9, E10, E11, E12.
  reflexivity.
Defined.

(** * Further properties of the screens *)

(** ** Trimmed text *)

Lemma trimStart_starts (s : string) :
  MessagesView.startsWithWhiteSpace (JS.trimStart s) = false.
Proof.
  induction s as [|c s IH]; cbn [JS.trimStart].
  - reflexivity.
  - destruct (JS.isWhiteSpace c) eqn:Hc; [exact IH | cbn; exact Hc].
Qed.

Lemma trimEnd_starts (s : string) :
  MessagesView.startsWithWhiteSpace s = false ->
  MessagesView.startsWithWhiteSpace (JS.trimEnd s) = false.
Proof.
  destruct s as [|c s]; [reflexivity|]. cbn [MessagesView.startsWithWhiteSpace].
  intros Hc. cbn [JS.trimEnd].
  destruct (JS.trimEnd s); [rewrite Hc|]; cbn; trivial.
Qed.

Lemma trimEnd_ends (s : string) :
  MessagesView.endsWithWhiteSpace (JS.trimEnd s) = false.
Proof.
  induction s as [|c s IH]; cbn [JS.trimEnd].
  - reflexivity.
  - destruct (JS.trimEnd s) as [|d t].
    + destruct (JS.isWhiteSpace c) eqn:Hc; cbn; trivial.
    + exact IH.
Qed.

Lemma trimStart_fixed (s : string) :
  MessagesView.startsWithWhiteSpace s = false -> JS.trimStart s = s.
Proof.
  destruct s as [|c s]; [reflexivity|]. cbn. now intros ->.
Qed.

Lemma trimEnd_fixed (s : string) :
  MessagesView.endsWithWhiteSpace s = false -> JS.trimEnd s = s.
Proof.
  induction s as [|c s IH]; [reflexivity|].
  destruct s as [|d t].
  - cbn. now intros ->.
  - intros H. change (MessagesView.endsWithWhiteSpace (String d t) = false) in H.
    cbn [JS.trimEnd] in *. now rewrite (IH H).
Qed.

Lemma trim_idempotent (s : string) : JS.trim (JS.trim s) = JS.trim s.
Proof.
  unfold JS.trim at 1.
  rewrite trimStart_fixed.
  - apply trimEnd_fixed. apply trimEnd_ends.
  - apply trimEnd_starts, trimStart_starts.
Qed.

Lemma trim_wellFormed (selected sender_id text : string) :
  JS.not (JS.trim text) = false -> JS.not selected = false ->
  MessagesView.wellFormed
    {| NewMessage.conversation_id := selected;
       NewMessage.sender_id := sender_id;
       NewMessage.content := JS.trim text |} = true.
Proof.
  unfold JS.not, MessagesView.wellFormed. cbn. intros -> ->.
  unfold JS.trim at 1. rewrite trimEnd_starts by apply trimStart_starts.
  unfold JS.trim. now rewrite trimEnd_ends.
Qed.

(** ** Messages: what the screen sends, over any run *)

(** Takes a handler apart along the backend's answers and the guards. *)
Ltac split_handler :=
  unfold_handler;
  repeat match goal with
    | |- context [respond ?q ?b] =>
        let E := fresh "E" in destruct (respond q b) as [[?|?] ?] eqn:E
    | |- context [match ?x with Some _ => _ | None => _ end] =>
        let E := fresh "E" in destruct x eqn:E
    | |- context [if ?c then _ else _] =>
        let E := fresh "E" in destruct c eqn:E
    end;
  cbn [ui backend out fst snd] in *.

Section MessagesRuns.

Context {B : Backend}.
Import Messages MessagesView.

Lemma handle_sendsOnlyWellFormed (ev : Event) (w : World State) :
  forallb sendsOnlyWellFormed (out w) = true ->
  forallb sendsOnlyWellFormed (out (snd (handle ev w))) = true.
Proof.
  intros Hw.
  destruct ev as [user|user payload|conversationId|value|user]; cbn [handle].
  - unfold fetchConversations. split_handler;
      rewrite ?forallb_app, ?Hw; reflexivity.
  - unfold onMessageInsert, fetchMessage. split_handler;
      rewrite ?forallb_app, ?Hw; reflexivity.
  - unfold selectConversation, loadMessages. split_handler;
      rewrite ?forallb_app, ?Hw; reflexivity.
  - exact Hw.
  - unfold sendMessage. unfold_handler.
    destruct (selectedConversation (ui w)) as [selected|]; [|exact Hw].
    destruct user as [u|]; [|exact Hw].
    destruct (JS.not (JS.trim (newMessage (ui w)))) eqn:Ht; [exact Hw|].
    destruct (JS.not selected) eqn:Hs; [exact Hw|]. cbn [orb].
    assert (Hrow := trim_wellFormed selected (User.id u) _ Ht Hs).
    split_handler; rewrite ?forallb_app, ?Hw; cbn; rewrite ?Hrow; reflexivity.
Qed.

Lemma handleAll_sendsOnlyWellFormed (evs : list Event) (w : World State) :
  forallb sendsOnlyWellFormed (out w) = true ->
  forallb sendsOnlyWellFormed (out (snd (handleAll evs w))) = true.
Proof.
  revert w. induction evs as [|ev evs IH]; intros w Hw; [exact Hw|].
  cbn [handleAll]. unfold bind.
  pose proof (handle_sendsOnlyWellFormed ev w Hw) as H1.
  destruct (handle ev w) as [[] w1]. now apply IH.
Qed.

(** Whatever is typed, clicked, notified or answered, from any state of
    the component, every message the screen asks the backend to insert
    names a conversation and carries a text that is not empty and neither
    starts nor ends with white space. *)
Theorem screen_sends_only_trimmed_messages
  (evs : list Event) (st : State) (b : Srv) (row : NewMessage.t) :
  In (Sent (insert_message row)) (out (snd (run (handleAll evs) st b))) ->
  NewMessage.conversation_id row <> "" /\
  NewMessage.content row <> "" /\
  JS.trim (NewMessage.content row) = NewMessage.content row /\
  startsWithWhiteSpace (NewMessage.content row) = false /\
  endsWithWhiteSpace (NewMessage.content row) = false.
Proof.
  intros Hin.
  assert (H : forallb sendsOnlyWellFormed
                (out (snd (run (handleAll evs) st b))) = true)
    by (apply handleAll_sendsOnlyWellFormed; reflexivity).
  rewrite forallb_forall in H. specialize (H _ Hin). cbn in H.
  unfold wellFormed in H.
  repeat (apply andb_true_iff in H as [H ?]).
  repeat match goal with
         | H : negb _ = true |- _ => apply negb_true_iff in H
         end.
  repeat split; trivial.
  - now apply String.eqb_neq.
  - now apply String.eqb_neq.
  - unfold JS.trim. rewrite trimStart_fixed by assumption.
    now apply trimEnd_fixed.
Qed.

End MessagesRuns.

(** Alice opens "c1", types "  see you  " and presses Enter: the store is
    asked for the text without its padding. *)
Lemma screen_sends_only_trimmed_messages_witness :
  let evs := [MessagesView.Mounted (Some Sample.alice);
              MessagesView.ConversationClicked "c1";
              MessagesView.InputChanged "  see you  ";
              MessagesView.SendPressed (Some Sample.alice)] in
  let row := {| NewMessage.conversation_id := "c1";
                NewMessage.sender_id := "u-alice";
                NewMessage.content := "see you" |} in
  let w := snd (run (B := Reference.service) (MessagesView.handleAll evs)
                  Messages.initial Sample.db) in
  In (Sent (insert_message row)) (out w) /\
  NewMessage.content row <> "" /\
  JS.trim (NewMessage.content row) = NewMessage.content row.
Proof.
  intros evs row w.
  assert (Hin : In (Sent (insert_message row)) (out w))
    by (do 2 right; left; reflexivity).
  destruct (screen_sends_only_trimmed_messages (B := Reference.service)
              evs Messages.initial Sample.db row Hin) as (_ & Hne & Htrim & _).
  split; [exact Hin|]. split; [exact Hne | exact Htrim].
Defined.

(** ** Messages: notifications *)

Section MessagesNotifications.

Context {B : Backend}.
Import Messages MessagesView.

Lemma notified_appends (user : option User.t) (payload : MessageRow.t)
  (w : World State) :
  let w' := snd (handle (Notified user payload) w) in
  (exists added, messages (ui w') = messages (ui w) ++ added /\
                 List.length added <= 1) /\
  conversations (ui w') = conversations (ui w) /\
  selectedConversation (ui w') = selectedConversation (ui w) /\
  newMessage (ui w') = newMessage (ui w) /\
  loading (ui w') = loading (ui w) /\
  filter isToast (out w') = filter isToast (out w).
Proof.
  cbn [handle]. unfold onMessageInsert, fetchMessage, isOpen.
  split_handler; rewrite ?filter_app, ?app_nil_r;
    (split; [|repeat split; cbn; congruence]).
  all: try (exists []; rewrite app_nil_r; split; [reflexivity | cbn; lia]).
  eexists [_]. split; [reflexivity | cbn; lia].
Qed.

Lemma notifications_append_from (user : option User.t)
  (payloads : list MessageRow.t) (w : World State) :
  let w' := snd (handleAll (map (Notified user) payloads) w) in
  (exists added, messages (ui w') = messages (ui w) ++ added /\
                 List.length added <= List.length payloads) /\
  conversations (ui w') = conversations (ui w) /\
  selectedConversation (ui w') = selectedConversation (ui w) /\
  newMessage (ui w') = newMessage (ui w) /\
  loading (ui w') = loading (ui w) /\
  filter isToast (out w') = filter isToast (out w).
Proof.
  revert w. induction payloads as [|p ps IH]; intros w; cbn [map handleAll].
  - cbn. repeat split; trivial. exists []. now rewrite app_nil_r.
  - unfold bind.
    pose proof (notified_appends user p w) as H1. cbv zeta in H1.
    destruct (handle (Notified user p) w) as [[] w1]. cbn [snd] in H1.
    destruct H1 as ((a1 & Hm1 & Hl1) & Hc1 & Hs1 & Hn1 & Hlo1 & Ht1).
    specialize (IH w1). cbv zeta in IH.
    destruct IH as ((a2 & Hm2 & Hl2) & Hc2 & Hs2 & Hn2 & Hlo2 & Ht2).
    repeat split; try congruence.
    exists (a1 ++ a2). split.
    + now rewrite Hm2, Hm1, app_assoc.
    + rewrite length_app. cbn [List.length]. lia.
Qed.

(** A run of notifications, whatever the backend answers to the
    re-fetches: the messages displayed before are still there, in the same
    places, followed by at most one new row per notification; the text
    being typed, the selection and the conversation list are untouched,
    and no toast is shown, not even when a re-fetch fails. *)
Theorem notifications_only_append
  (user : option User.t) (payloads : list MessageRow.t) (st : State) (b : Srv) :
  let w := snd (run (handleAll (map (Notified user) payloads)) st b) in
  (exists added, messages (ui w) = messages st ++ added /\
                 List.length added <= List.length payloads) /\
  conversations (ui w) = conversations st /\
  selectedConversation (ui w) = selectedConversation st /\
  newMessage (ui w) = newMessage st /\
  loading (ui w) = loading st /\
  filter isToast (out w) = [].
Proof.
  exact (notifications_append_from user payloads (world st b [])).
Qed.

(** ** Messages: leaving "Loading..." *)

Lemma handle_loading (ev : Event) (w : World State) :
  (loading (ui w) = false -> loading (ui (snd (handle ev w))) = false) /\
  ((forall o s, exists e, fst (respond (select_conversations o) s) = Failure e) ->
   loading (ui (snd (handle ev w))) = loading (ui w)).
Proof.
  destruct ev as [user|user payload|conversationId|value|user]; cbn [handle].
  - unfold fetchConversations. destruct user as [u|]; [|split; cbn; trivial].
    unfold_handler. split.
    + destruct (respond _ (backend w)) as [[?|?] ?]; trivial.
    + intros Hoff.
      destruct (Hoff (order_ "updated_at" false) (backend w)) as [e He].
      destruct (respond _ (backend w)) as [[?|?] ?]; [discriminate|reflexivity].
  - unfold onMessageInsert, fetchMessage. split; [|intros _];
      split_handler; trivial.
  - unfold selectConversation, loadMessages. split; [|intros _];
      split_handler; trivial.
  - split; trivial.
  - unfold sendMessage. split; [|intros _]; split_handler; trivial.
Qed.

(** The list pane leaves "Loading..." only through an answered
    conversations query.  Once it has, nothing brings "Loading..." back;
    and over a backend whose conversations query always fails, whatever
    the user does from the initial state, the flag stays on and the pane
    shows no conversation (nor the "No conversations yet" text). *)
Theorem conversations_loading_until_answered (evs : list Event) (b : Srv) :
  (forall st, loading st = false ->
              loading (ui (snd (run (handleAll evs) st b))) = false) /\
  ((forall o s, exists e, fst (respond (select_conversations o) s) = Failure e) ->
   loading (ui (snd (run (handleAll evs) initial b))) = true /\
   shownConversations (ui (snd (run (handleAll evs) initial b))) = []).
Proof.
  split.
  - intros st Hst. unfold run.
    change (loading (ui (world st b [])) = false) in Hst.
    revert Hst. generalize (world st b []).
    induction evs as [|ev evs IH]; intros w Hw; [exact Hw|].
    cbn [handleAll]. unfold bind.
    pose proof (proj1 (handle_loading ev w) Hw) as H1.
    destruct (handle ev w) as [[] w1]. now apply IH.
  - intros Hoff.
    assert (Hoffline : forall w : World State,
              loading (ui (snd (handleAll evs w))) = loading (ui w)).
    { induction evs as [|ev evs IH]; intros w; [reflexivity|].
      cbn [handleAll]. unfold bind.
      pose proof (proj2 (handle_loading ev w) Hoff) as H1.
      destruct (handle ev w) as [[] w1]. cbn [snd] in H1. now rewrite IH. }
    unfold shownConversations, run. now rewrite Hoffline.
Qed.

End MessagesNotifications.

(** With the backend out of reach Alice mounts the screen, clicks a
    conversation and types: the pane is still on "Loading...". *)
Lemma conversations_loading_until_answered_witness :
  let evs := [MessagesView.Mounted (Some Sample.alice);
              MessagesView.ConversationClicked "c1";
              MessagesView.InputChanged "hello";
              MessagesView.Mounted (Some Sample.alice)] in
  let w := snd (run (B := Offline.service Sample.timeout)
                  (MessagesView.handleAll evs) Messages.initial tt) in
  (forall o s, exists e,
      fst (respond (Backend := Offline.service Sample.timeout)
             (select_conversations o) s) = Failure e) /\
  Messages.loading (ui w) = true /\
  Messages.shownConversations (ui w) = [].
Proof.
  intros evs w.
  assert (Hoff : forall o s, exists e,
             fst (respond (Backend := Offline.service Sample.timeout)
                    (select_conversations o) s) = Failure e)
    by (intros o s; exists Sample.timeout; reflexivity).
  split; [exact Hoff|].
  exact (proj2 (conversations_loading_until_answered
                  (B := Offline.service Sample.timeout) evs tt) Hoff).
Defined.

(** ** Messages: the name and avatar of a conversation *)

Lemma find_filter {A : Type} (f : A -> bool) (l : list A) (x : A) :
  find f l = Some x -> exists rest, filter f l = x :: rest.
Proof.
  induction l as [|a l IH]; cbn; [discriminate|].
  destruct (f a).
  - intros [= ->]. now eexists.
  - exact IH.
Qed.

Lemma prefix_refl_app (s t : string) : prefix s (s ++ t)%string = true.
Proof.
  induction s as [|c s IH]; cbn; [now destruct t|].
  destruct (ascii_dec c c); [exact IH | congruence].
Qed.

Lemma concat_starts (sep x : string) (xs : list string) :
  exists t, String.concat sep (x :: xs) = (x ++ t)%string.
Proof.
  destruct xs as [|y ys]; cbn.
  - exists "". induction x as [|c x IH]; cbn; congruence.
  - now eexists.
Qed.

Lemma notOther_filter (u : User.t) (ps : list Participant.t) :
  forallb (fun p => Participant.user_id p =? User.id u) ps = true ->
  filter (MessagesView.isOther (Some u)) ps = [].
Proof.
  induction ps as [|p ps IH]; cbn; [reflexivity|].
  intros H. apply andb_true_iff in H as [Hp Hps].
  rewrite Hp. cbn. now apply IH.
Qed.

(** The header of a conversation is never blank: it is 'Unknown' whenever
    the joined names come out empty.  In particular, for a conversation
    whose participant list is absent, empty or holds only the signed-in
    user, the name is 'Unknown' and there is no avatar. *)
Theorem conversation_name_never_blank
  (user : option User.t) (u : User.t) (conv : Conversation.t) :
  MessagesView.getConversationName user conv <> "" /\
  ((forall ps, Conversation.conversation_participants conv = Some ps ->
               forallb (fun p => Participant.user_id p =? User.id u) ps = true) ->
   MessagesView.getConversationName (Some u) conv = "Unknown" /\
   MessagesView.getConversationAvatar (Some u) conv = None).
Proof.
  unfold MessagesView.getConversationName, MessagesView.getConversationAvatar.
  split.
  - destruct (Conversation.conversation_participants conv) as [ps|];
      [|discriminate].
    cbv zeta. destruct (JS.not _) eqn:E; [discriminate|].
    now apply not_false_iff.
  - intros Halone.
    destruct (Conversation.conversation_participants conv) as [ps|];
      [|split; reflexivity].
    specialize (Halone ps eq_refl). cbv zeta.
    rewrite (notOther_filter u ps Halone). cbn. split; [reflexivity|].
    destruct (find (MessagesView.isOther (Some u)) ps) as [p|] eqn:Hfind;
      [|reflexivity].
    apply find_filter in Hfind as [rest Hrest].
    rewrite (notOther_filter u ps Halone) in Hrest. discriminate.
Qed.

(** Alice alone in a conversation, and a conversation without a
    participant list: both are 'Unknown', without avatar. *)
Lemma conversation_name_never_blank_witness :
  let alone := Sample.conversation "c9" 0%N (Some [Sample.participant "u-alice" "Alice"]) in
  (forall ps, Conversation.conversation_participants alone = Some ps ->
              forallb (fun p => Participant.user_id p =? User.id Sample.alice) ps = true) /\
  MessagesView.getConversationName (Some Sample.alice) alone = "Unknown" /\
  MessagesView.getConversationAvatar (Some Sample.alice) alone = None /\
  MessagesView.getConversationName (Some Sample.alice) Sample.noParticipants = "Unknown".
Proof.
  intros alone.
  assert (H : forall ps, Conversation.conversation_participants alone = Some ps ->
              forallb (fun p => Participant.user_id p =? User.id Sample.alice) ps = true)
    by (intros ps [= <-]; reflexivity).
  destruct (conversation_name_never_blank (Some Sample.alice) Sample.alice alone)
    as [_ Halone].
  destruct (conversation_name_never_blank (Some Sample.alice) Sample.alice
              Sample.noParticipants) as [_ Hnone].
  split; [exact H|]. split; [exact (proj1 (Halone H))|].
  split; [exact (proj2 (Halone H))|].
  apply Hnone. intros ps [=].
Defined.

(** In a conversation between the signed-in user and one other
    participant, listed in either order, the header shows the other
    participant's name (if it has one) and the avatar is the other
    participant's. *)
Theorem direct_conversation_shows_the_other
  (u : User.t) (me other : Participant.t) (conv : Conversation.t) :
  Participant.user_id me = User.id u ->
  Participant.user_id other <> User.id u ->
  Participant.full_name (Participant.profiles other) <> "" ->
  Conversation.conversation_participants conv = Some [me; other] \/
  Conversation.conversation_participants conv = Some [other; me] ->
  MessagesView.getConversationName (Some u) conv
    = Participant.full_name (Participant.profiles other) /\
  MessagesView.getConversationAvatar (Some u) conv
    = Participant.avatar_url (Participant.profiles other).
Proof.
  intros Hme Hother Hname Hps.
  apply String.eqb_eq in Hme. apply String.eqb_neq in Hother.
  apply not_false_iff in Hname.
  unfold MessagesView.getConversationName, MessagesView.getConversationAvatar.
  destruct Hps as [-> | ->];
    cbn [filter find map MessagesView.isOther];
    rewrite Hme, Hother; cbn [negb]; cbv zeta;
    change (String.concat ", "
              (map (fun p => Participant.full_name (Participant.profiles p))
                   [other]))
      with (Participant.full_name (Participant.profiles other));
    rewrite Hname; split; reflexivity.
Qed.

Lemma direct_conversation_shows_the_other_witness :
  let me := Sample.participant "u-alice" "Alice" in
  let other := Sample.participant "u-bob" "Bob" in
  (Participant.user_id me = User.id Sample.alice /\
   Participant.user_id other <> User.id Sample.alice /\
   Participant.full_name (Participant.profiles other) <> "" /\
   Conversation.conversation_participants Sample.withAlice = Some [me; other]) /\
  MessagesView.getConversationName (Some Sample.alice) Sample.withAlice = "Bob" /\
  MessagesView.getConversationAvatar (Some Sample.alice) Sample.withAlice = None.
Proof.
  intros me other.
  assert (H1 : Participant.user_id me = User.id Sample.alice) by reflexivity.
  assert (H2 : Participant.user_id other <> User.id Sample.alice) by discriminate.
  assert (H3 : Participant.full_name (Participant.profiles other) <> "")
    by discriminate.
  assert (H4 : Conversation.conversation_participants Sample.withAlice
               = Some [me; other]) by reflexivity.
  split; [repeat split; assumption|].
  exact (direct_conversation_shows_the_other Sample.alice me other
           Sample.withAlice H1 H2 H3 (or_introl H4)).
Defined.

(** The avatar and the name agree on who comes first: whenever the avatar
    is taken from a participant, the name starts with that participant's
    full name. *)
Theorem conversation_name_starts_with_avatar_owner
  (user : option User.t) (conv : Conversation.t)
  (ps : list Participant.t) (p : Participant.t) :
  Conversation.conversation_participants conv = Some ps ->
  find (MessagesView.isOther user) ps = Some p ->
  MessagesView.getConversationAvatar user conv
    = Participant.avatar_url (Participant.profiles p) /\
  prefix (Participant.full_name (Participant.profiles p))
         (MessagesView.getConversationName user conv) = true.
Proof.
  intros Hps Hfind.
  unfold MessagesView.getConversationName, MessagesView.getConversationAvatar.
  rewrite Hps, Hfind. split; [reflexivity|]. cbv zeta.
  destruct (find_filter _ _ _ Hfind) as [rest ->]. cbn [map].
  destruct (concat_starts ", " (Participant.full_name (Participant.profiles p))
              (map (fun q => Participant.full_name (Participant.profiles q)) rest))
    as [t Ht].
  rewrite Ht.
  destruct (JS.not _) eqn:E.
  - apply not_true_iff in E.
    destruct (Participant.full_name (Participant.profiles p)); [reflexivity|].
    discriminate.
  - apply prefix_refl_app.
Qed.

Lemma conversation_name_starts_with_avatar_owner_witness :
  let bob := Sample.participant "u-bob" "Bob" in
  let ps := [bob; Sample.participant "u-carol" "Carol"] in
  (Conversation.conversation_participants Sample.withoutAlice = Some ps /\
   find (MessagesView.isOther (Some Sample.alice)) ps = Some bob) /\
  MessagesView.getConversationName (Some Sample.alice) Sample.withoutAlice
    = "Bob, Carol" /\
  prefix "Bob" (MessagesView.getConversationName (Some Sample.alice)
                  Sample.withoutAlice) = true.
Proof.
  intros bob ps.
  split; [split; reflexivity|]. split; [reflexivity|].
  exact (proj2 (conversation_name_starts_with_avatar_owner
                  (Some Sample.alice) Sample.withoutAlice ps bob eq_refl eq_refl)).
Defined.

(** ** Project cards *)

Lemma isFalsy_zero (amount : option Z) :
  Cards.isFalsy amount = true <-> amount = None \/ amount = Some 0%Z.
Proof.
  destruct amount as [z|]; cbn.
  - rewrite Z.eqb_eq. split; [intros ->; now right | intros [[=]|[= ->]]; reflexivity].
  - split; [now left | reflexivity].
Qed.

(** [formatBudget] tells 'Budget not specified' exactly when both bounds
    are null or zero, and it never tells a zero bound from a missing one:
    a budget from 0 to 500 reads as "Up to $500". *)
Theorem formatBudget_zero_is_unspecified (min max : option Z) :
  (Cards.formatBudget min max = "Budget not specified" <->
   (min = None \/ min = Some 0%Z) /\ (max = None \/ max = Some 0%Z)) /\
  Cards.formatBudget (Some 0%Z) max = Cards.formatBudget None max /\
  Cards.formatBudget min (Some 0%Z) = Cards.formatBudget min None.
Proof.
  split; [|split].
  - rewrite <- !isFalsy_zero. unfold Cards.formatBudget.
    destruct (Cards.isFalsy min), (Cards.isFalsy max); cbn;
      split; try discriminate; try tauto; intros [? ?]; discriminate.
  - unfold Cards.formatBudget. cbn. now destruct (Cards.isFalsy max).
  - unfold Cards.formatBudget. cbn. now destruct (Cards.isFalsy min).
Qed.

Lemma shown_firstn (k : nat) (skills : list Cards.Skill) (more : list Cards.Badge) :
  Cards.shownSkills
    (map (fun s => Cards.SkillBadge (Cards.name s)) (firstn k skills) ++ more)
  = map Cards.name (firstn k skills) ++ Cards.shownSkills more.
Proof.
  induction (firstn k skills) as [|s l IH]; cbn; [reflexivity|]. now rewrite <- IH.
Qed.

Lemma hidden_firstn (k : nat) (skills : list Cards.Skill) (more : list Cards.Badge) :
  Cards.hiddenSkills
    (map (fun s => Cards.SkillBadge (Cards.name s)) (firstn k skills) ++ more)
  = Cards.hiddenSkills more.
Proof.
  unfold Cards.hiddenSkills.
  induction (firstn k skills) as [|s l IH]; cbn; [reflexivity|]. exact IH.
Qed.

(** Every skill of a card is accounted for: the badges name the first
    four skills of a project (the first three of a coder), in order, and
    the number on the "+N more" badge is the number of skills left out, so
    names shown plus skills hidden is the number of skills; a card never
    carries more than five (four) skill badges. *)
Theorem skill_badges_account_for_every_skill (skills : list Cards.Skill) :
  let project := Cards.projectSkillBadges (Some skills) in
  let coder := Cards.coderSkillBadges (Some skills) in
  Cards.shownSkills project = map Cards.name (firstn 4 skills) /\
  List.length (Cards.shownSkills project) + Cards.hiddenSkills project
    = List.length skills /\
  List.length project <= 5 /\
  Cards.shownSkills coder = map Cards.name (firstn 3 skills) /\
  List.length (Cards.shownSkills coder) + Cards.hiddenSkills coder
    = List.length skills /\
  List.length coder <= 4.
Proof.
  cbv zeta. unfold Cards.projectSkillBadges, Cards.coderSkillBadges.
  destruct (Nat.ltb_spec 0 (List.length skills)) as [Hpos|Hzero].
  - rewrite !shown_firstn, !hidden_firstn, !length_app, !length_map,
      !length_firstn.
    destruct (Nat.ltb_spec 4 (List.length skills)),
             (Nat.ltb_spec 3 (List.length skills));
      unfold Cards.hiddenSkills, list_sum;
      cbn [Cards.shownSkills flat_map map fold_right List.length app];
      rewrite ?app_nil_r, ?length_map, ?length_firstn;
      repeat split; try reflexivity; lia.
  - destruct skills; [|cbn in Hzero; lia]. cbn. repeat split; lia.
Qed.

(** ** Projects: a successful application *)

Section ProjectsRuns.

Context {B : Backend}.
Import Projects.

(** When the insert of an application succeeds the success toast is shown
    first and the open projects are then fetched again, from the backend
    as the insert left it.  If that second request fails the user sees the
    success toast followed by the 'Failed to load projects' error, and the
    cards stay as they were.  In neither case is the list behind the "My
    Applications" tab touched: the new application does not appear there. *)
Theorem handleApplyToProject_success
  (user : User.t) (projectId : string) (st : State) (b b1 : Srv) :
  let apply := insert_project_application
                 {| Application.project_id := projectId;
                    Application.coder_id := User.id user;
                    Application.message := "I would like to apply for this project." |} in
  let refresh := select_projects [eq_ "status" "open"]
                                 (order_ "created_at" false) in
  respond apply b = (Success tt, b1) ->
  let w := snd (run (handleApplyToProject (Some user) projectId) st b) in
  applications (ui w) = applications st /\
  myProjects (ui w) = myProjects st /\
  backend w = snd (respond refresh b1) /\
  match fst (respond refresh b1) with
  | Success data =>
      out w = [Sent apply; ToastSuccess "Application submitted successfully";
               Sent refresh] /\
      projects (ui w) = data /\ loading (ui w) = false
  | Failure error =>
      out w = [Sent apply; ToastSuccess "Application submitted successfully";
               Sent refresh;
               ConsoleError "Error fetching projects:" error;
               ToastError "Failed to load projects"] /\
      ui w = st
  end.
Proof.
  intros apply refresh H w. subst apply refresh w.
  unfold handleApplyToProject, fetchProjects. unfold_handler.
  rewrite H. cbn [ui backend out fst snd].
  destruct (respond (select_projects [eq_ "status" "open"]
                                     (order_ "created_at" false)) b1)
    as [[data|error] b2]; cbn [ui backend out fst snd];
    repeat split; reflexivity.
Qed.

(** ** Projects: the "My Projects" tab *)

(** Over a backend that evaluates [eq], an answered [fetchMyProjects]
    leaves in [myProjects] only projects whose [hirer_id] is the signed-in
    user's id, whatever their status, and does not touch the browse list. *)
Theorem fetchMyProjects_only_own
  (user : User.t) (data : list Project.t) (st : State) (b : Srv) :
  EvaluatesEq B ->
  fst (respond (select_projects [eq_ "hirer_id" (User.id user)]
                                (order_ "created_at" false)) b) = Success data ->
  let w := snd (run (fetchMyProjects (Some user)) st b) in
  myProjects (ui w) = data /\
  (forall p, In p (myProjects (ui w)) -> Project.hirer_id p = User.id user) /\
  projects (ui w) = projects st /\
  loading (ui w) = loading st.
Proof.
  intros HB H w. subst w. unfold fetchMyProjects. unfold_handler.
  pose proof (HB _ _ _ _ H) as Hrows.
  destruct (respond _ b) as [[rows|error] b']; cbn [fst] in H; [|discriminate].
  injection H as ->. cbn. repeat split; trivial.
  intros p Hp.
  specialize (Hrows p (eq_ "hirer_id" (User.id user)) Hp (or_introl eq_refl)).
  cbn in Hrows. now injection Hrows.
Qed.

(** ** Projects: leaving the skeleton cards *)

Lemma fetchProjects_loading (w : World State) :
  (loading (ui w) = false -> loading (ui (snd (fetchProjects w))) = false) /\
  ((forall eq o s, exists e, fst (respond (select_projects eq o) s) = Failure e) ->
   loading (ui (snd (fetchProjects w))) = loading (ui w)).
Proof.
  unfold fetchProjects. unfold_handler. split.
  - destruct (respond _ (backend w)) as [[?|?] ?]; trivial.
  - intros Hoff.
    destruct (Hoff [eq_ "status" "open"] (order_ "created_at" false) (backend w))
      as [e He].
    destruct (respond _ (backend w)) as [[?|?] ?]; [discriminate|reflexivity].
Qed.

Lemma fetchMyProjects_loading (user : option User.t) (w : World State) :
  loading (ui (snd (fetchMyProjects user w))) = loading (ui w).
Proof. unfold fetchMyProjects. split_handler; reflexivity. Qed.

Lemma fetchMyApplications_loading (user : option User.t) (w : World State) :
  loading (ui (snd (fetchMyApplications user w))) = loading (ui w).
Proof. unfold fetchMyApplications. split_handler; reflexivity. Qed.

Lemma handle_loading_projects (ev : Event) (w : World State) :
  (loading (ui w) = false -> loading (ui (snd (handle ev w))) = false) /\
  ((forall eq o s, exists e, fst (respond (select_projects eq o) s) = Failure e) ->
   loading (ui (snd (handle ev w))) = loading (ui w)).
Proof.
  destruct ev as [user role|user role projectId|user|open]; cbn [handle].
  - destruct user as [u|]; [|split; cbn; trivial].
    unfold bind.
    pose proof (fetchProjects_loading w) as [H1 H2].
    destruct (fetchProjects w) as [[] w1]; cbn [snd] in *.
    destruct (hasRole role "hirer"); cbv iota;
      [rewrite fetchMyProjects_loading; split; trivial|].
    destruct (hasRole role "coder"); cbv iota;
      [rewrite fetchMyApplications_loading; split; trivial|].
    split; trivial.
  - destruct (hasRole role "coder"); [|split; cbn; trivial].
    unfold handleApplyToProject.
    destruct user as [u|]; [|split; cbn; trivial].
    unfold bind, call, toast_success, toast_error, emit.
    destruct (respond _ (backend w)) as [[data|error] b'];
      cbn [ui backend out].
    + match goal with
      | |- context [fetchProjects ?w'] => exact (fetchProjects_loading w')
      end.
    + destruct (PostgrestError.code error =? "23505"); split; cbn; trivial.
  - unfold bind, modify. cbn [ui backend out].
    rewrite fetchMyProjects_loading. split; cbn; trivial.
  - split; cbn; trivial.
Qed.

(** The browse tab leaves its skeleton cards only through an answered
    query for the open projects.  Once it has, nothing brings the skeleton
    back; and over a backend whose projects queries always fail, whatever
    happens to the screen from its initial state, the skeleton stays and
    the tab shows neither a project nor the "No projects available" text. *)
Theorem projects_loading_until_answered (evs : list Event) (b : Srv) :
  (forall st, loading st = false ->
              loading (ui (snd (run (handleAll evs) st b))) = false) /\
  ((forall eq o s, exists e, fst (respond (select_projects eq o) s) = Failure e) ->
   loading (ui (snd (run (handleAll evs) initial b))) = true /\
   browseList (ui (snd (run (handleAll evs) initial b))) = []).
Proof.
  split.
  - intros st Hst. unfold run.
    change (loading (ui (world st b [])) = false) in Hst.
    revert Hst. generalize (world st b []).
    induction evs as [|ev evs IH]; intros w Hw; [exact Hw|].
    cbn [handleAll]. unfold bind.
    pose proof (proj1 (handle_loading_projects ev w) Hw) as H1.
    destruct (handle ev w) as [[] w1]. now apply IH.
  - intros Hoff.
    assert (Hoffline : forall w : World State,
              loading (ui (snd (handleAll evs w))) = loading (ui w)).
    { induction evs as [|ev evs IH]; intros w; [reflexivity|].
      cbn [handleAll]. unfold bind.
      pose proof (proj2 (handle_loading_projects ev w) Hoff) as H1.
      destruct (handle ev w) as [[] w1]. cbn [snd] in H1. now rewrite IH. }
    unfold browseList, run. now rewrite Hoffline.
Qed.

(** ** Projects: one insert per click *)

Lemma fetchProjects_inserts (w : World State) :
  filter ProjectsEvents.isApplicationInsert (out (snd (fetchProjects w)))
  = filter ProjectsEvents.isApplicationInsert (out w).
Proof.
  unfold fetchProjects. split_handler; rewrite ?filter_app, ?app_nil_r; reflexivity.
Qed.

Lemma fetchMyProjects_inserts (user : option User.t) (w : World State) :
  filter ProjectsEvents.isApplicationInsert (out (snd (fetchMyProjects user w)))
  = filter ProjectsEvents.isApplicationInsert (out w).
Proof.
  unfold fetchMyProjects. split_handler; rewrite ?filter_app, ?app_nil_r; reflexivity.
Qed.

Lemma fetchMyApplications_inserts (user : option User.t) (w : World State) :
  filter ProjectsEvents.isApplicationInsert (out (snd (fetchMyApplications user w)))
  = filter ProjectsEvents.isApplicationInsert (out w).
Proof.
  unfold fetchMyApplications.
  split_handler; rewrite ?filter_app, ?app_nil_r; reflexivity.
Qed.

Lemma handle_inserts (ev : Event) (w : World State) :
  List.length (filter ProjectsEvents.isApplicationInsert (out (snd (handle ev w))))
  = List.length (filter ProjectsEvents.isApplicationInsert (out w)) +
    (if ProjectsEvents.isCoderClick ev then 1 else 0).
Proof.
  destruct ev as [user role|user role projectId|user|open];
    cbn [handle ProjectsEvents.isCoderClick].
  - rewrite Nat.add_0_r. destruct user as [u|]; [|reflexivity].
    unfold bind at 1.
    pose proof (fetchProjects_inserts w) as H1.
    destruct (fetchProjects w) as [[] w1]; cbn [snd] in *.
    destruct (hasRole role "hirer"); cbv iota;
      [now rewrite fetchMyProjects_inserts, H1|].
    destruct (hasRole role "coder"); cbv iota;
      [now rewrite fetchMyApplications_inserts, H1|].
    cbn. now rewrite H1.
  - destruct user as [u|].
    + destruct (hasRole role "coder"); [|cbn; lia].
      unfold handleApplyToProject. unfold bind at 1. unfold call.
      destruct (respond _ (backend w)) as [[data|error] b'].
      * unfold bind, toast_success, emit. cbn [ui backend out].
        rewrite fetchProjects_inserts. cbn [out].
        rewrite !filter_app, !length_app. cbn. lia.
      * unfold toast_error, emit.
        destruct (PostgrestError.code error =? "23505"); cbn [snd out];
          rewrite !filter_app, !length_app; cbn; lia.
    + destruct (hasRole role "coder"); cbn; lia.
  - unfold bind, modify. cbn [ui backend out].
    rewrite fetchMyProjects_inserts. cbn. lia.
  - cbn. lia.
Qed.

(** Whatever happens to the screen and whatever the backend answers, the
    number of application inserts sent is the number of clicks on a card's
    button by a signed-in coder: each such click sends exactly one, also
    on a project already applied to, a failed insert is never repeated,
    and nothing else (a hirer's click, the effect, a refresh) sends any. *)
Theorem one_application_insert_per_coder_click
  (evs : list Event) (st : State) (b : Srv) :
  List.length (filter ProjectsEvents.isApplicationInsert
                 (out (snd (run (handleAll evs) st b))))
  = List.length (filter ProjectsEvents.isCoderClick evs).
Proof.
  unfold run.
  change (List.length (filter ProjectsEvents.isCoderClick evs))
    with (List.length (filter ProjectsEvents.isApplicationInsert
                         (out (world st b []))) +
          List.length (filter ProjectsEvents.isCoderClick evs)).
  generalize (world st b []).
  induction evs as [|ev evs IH]; intros w; cbn [handleAll filter].
  - cbn. lia.
  - unfold bind. pose proof (handle_inserts ev w) as H1.
    destruct (handle ev w) as [[] w1]. cbn [snd] in H1.
    rewrite IH, H1. destruct (ProjectsEvents.isCoderClick ev); cbn; lia.
Qed.

End ProjectsRuns.

(** Alice applies to "p5".  The store takes the application and the cards
    are refreshed; when the service fails right after the insert she sees
    the success toast and then the load error. *)
Lemma handleApplyToProject_success_witness :
  let apply := insert_project_application (Sample.application "p5" "u-alice") in
  let flaky := Reference.withOutage [None; Some Sample.timeout] Sample.db in
  let w := snd (run (B := Reference.service)
                  (Projects.handleApplyToProject (Some Sample.alice) "p5")
                  Projects.initial Sample.db) in
  let w' := snd (run (B := Reference.service)
                   (Projects.handleApplyToProject (Some Sample.alice) "p5")
                   Projects.initial flaky) in
  (fst (respond (Backend := Reference.service) apply Sample.db) = Success tt /\
   fst (respond (Backend := Reference.service) apply flaky) = Success tt) /\
  (map Project.id (Projects.projects (ui w)) = ["p5"; "p1"] /\
   Projects.applications (ui w) = [] /\
   Reference.project_applications (backend w)
     = [Sample.application "p1" "u-alice"; Sample.application "p5" "u-alice"]) /\
  (filter isToast (out w')
     = [ToastSuccess "Application submitted successfully";
        ToastError "Failed to load projects"] /\
   Projects.applications (ui w') = []).
Proof.
  intros apply flaky w w'.
  split; [split; reflexivity|].
  pose proof (handleApplyToProject_success (B := Reference.service)
                Sample.alice "p5" Projects.initial Sample.db
                (snd (respond (Backend := Reference.service) apply Sample.db))
                eq_refl) as H.
  pose proof (handleApplyToProject_success (B := Reference.service)
                Sample.alice "p5" Projects.initial flaky
                (snd (respond (Backend := Reference.service) apply flaky))
                eq_refl) as H'.
  cbv zeta in H, H'. fold w in H. fold w' in H'.
  destruct H as (Happ & _ & Hsrv & Hout).
  destruct H' as (Happ' & _ & _ & Hout').
  match type of Hout with
  | match ?r with _ => _ end =>
      let v := eval vm_compute in r in change r with v in Hout
  end.
  match type of Hout' with
  | match ?r with _ => _ end =>
      let v := eval vm_compute in r in change r with v in Hout'
  end.
  cbv iota in Hout, Hout'.
  destruct Hout as (_ & Hprojects & _). destruct Hout' as [Hout' _].
  split; [split; [|split]|split].
  - rewrite Hprojects. reflexivity.
  - exact Happ.
  - rewrite Hsrv. reflexivity.
  - rewrite Hout'. reflexivity.
  - exact Happ'.
Defined.

(** Bob, who posted the five sample projects, looks at "My Projects":
    all five come back, in every status. *)
Lemma fetchMyProjects_only_own_witness :
  let q := select_projects [eq_ "hirer_id" "u-bob"] (order_ "created_at" false) in
  let w := snd (run (B := Reference.service)
                  (Projects.fetchMyProjects (Some Sample.bob))
                  Projects.initial Sample.db) in
  (EvaluatesEq Reference.service /\
   exists data, fst (respond (Backend := Reference.service) q Sample.db)
                = Success data) /\
  map Project.status (Projects.myProjects (ui w))
    = ["open"; "cancelled"; "completed"; "in_progress"; "open"] /\
  (forall p, In p (Projects.myProjects (ui w)) ->
             Project.hirer_id p = User.id Sample.bob).
Proof.
  intros q w.
  split; [split; [exact reference_evaluates_eq | eexists; reflexivity]|].
  split; [reflexivity|].
  destruct (fetchMyProjects_only_own (B := Reference.service)
              Sample.bob _ Projects.initial Sample.db
              reference_evaluates_eq eq_refl) as (_ & Hown & _).
  exact Hown.
Defined.

(** With the backend out of reach Alice opens the screen and clicks
    "Apply" on a card: the tab is still on its skeleton. *)
Lemma projects_loading_until_answered_witness :
  let evs := [Projects.Mounted (Some Sample.alice) (Some "coder");
              Projects.CardButtonClicked (Some Sample.alice) (Some "coder") "p1";
              Projects.Mounted (Some Sample.alice) (Some "coder")] in
  let w := snd (run (B := Offline.service Sample.timeout)
                  (Projects.handleAll evs) Projects.initial tt) in
  (forall eq o s, exists e,
      fst (respond (Backend := Offline.service Sample.timeout)
             (select_projects eq o) s) = Failure e) /\
  Projects.loading (ui w) = true /\
  Projects.browseList (ui w) = [].
Proof.
  intros evs w.
  assert (Hoff : forall eq o s, exists e,
             fst (respond (Backend := Offline.service Sample.timeout)
                    (select_projects eq o) s) = Failure e)
    by (intros eq o s; exists Sample.timeout; reflexivity).
  split; [exact Hoff|].
  exact (proj2 (projects_loading_until_answered
                  (B := Offline.service Sample.timeout) evs tt) Hoff).
Defined.

(** ** Browse: mounting and following *)

Section BrowseRuns.

Context {B : Backend}.
Import Browse.

(** Mounting the Browse screen sends two requests, the coders and then the
    teams, and always ends with the loading flag off: each list is
    replaced by its answer when there is one and kept otherwise, a failure
    of either request shows no toast, and the search term and the skill
    filter are untouched.  With both requests failing the screen thus
    leaves "Loading..." with empty lists. *)
Theorem browse_mount_always_leaves_loading (st : State) (b : Srv) :
  let coders_q := select_profiles [eq_ "role" "coder"] (order_ "xp" false) in
  let teams_q := select_teams (order_ "created_at" false) in
  let w := snd (run BrowseEffects.mounted st b) in
  loading (ui w) = false /\
  filter isRequest (out w) = [Sent coders_q; Sent teams_q] /\
  filter isToast (out w) = [] /\
  coders (ui w) = match fst (respond coders_q b) with
                  | Success data => JS.orEmpty data
                  | Failure _ => coders st
                  end /\
  teams (ui w) = match fst (respond teams_q (snd (respond coders_q b))) with
                 | Success data => JS.orEmpty data
                 | Failure _ => teams st
                 end /\
  searchTerm (ui w) = searchTerm st /\
  skillFilter (ui w) = skillFilter st.
Proof.
  cbv zeta. unfold BrowseEffects.mounted, fetchCoders, fetchTeams.
  unfold_handler.
  destruct (respond (select_profiles [eq_ "role" "coder"] (order_ "xp" false)) b)
    as [[cs|e1] b1]; cbn [ui backend out fst snd];
    destruct (respond (select_teams (order_ "created_at" false)) b1)
      as [[ts|e2] b2]; cbn [ui backend out fst snd];
    repeat split; reflexivity.
Qed.

(** A follow that the backend accepts is not reflected locally: the
    handler fetches the coders again, from the backend as the insert left
    it, and shows them if that request is answered; if it fails the cards
    stay as they were.  Teams, loading flag, search term and skill filter
    are untouched and no toast is shown either way. *)
Theorem handleFollow_success
  (user : User.t) (profileId : string) (st : State) (b b1 : Srv) :
  let follow := insert_follow {| Follow.follower_id := User.id user;
                                 Follow.following_id := profileId |} in
  let refresh := select_profiles [eq_ "role" "coder"] (order_ "xp" false) in
  respond follow b = (Success tt, b1) ->
  let w := snd (run (handleFollow (Some user) profileId) st b) in
  filter isRequest (out w) = [Sent follow; Sent refresh] /\
  filter isToast (out w) = [] /\
  backend w = snd (respond refresh b1) /\
  coders (ui w) = match fst (respond refresh b1) with
                  | Success data => JS.orEmpty data
                  | Failure _ => coders st
                  end /\
  teams (ui w) = teams st /\ loading (ui w) = loading st /\
  searchTerm (ui w) = searchTerm st /\ skillFilter (ui w) = skillFilter st.
Proof.
  intros follow refresh H w. subst follow refresh w.
  unfold handleFollow, fetchCoders. unfold_handler.
  rewrite H. cbn [ui backend out fst snd].
  destruct (respond (select_profiles [eq_ "role" "coder"] (order_ "xp" false)) b1)
    as [[cs|e] b2]; cbn [ui backend out fst snd]; repeat split; reflexivity.
Qed.

End BrowseRuns.

(** Alice follows Carol on the sample store: the follow is recorded and
    the two coders are fetched again. *)
Lemma handleFollow_success_witness :
  let follow := insert_follow {| Follow.follower_id := "u-alice";
                                 Follow.following_id := "u-carol" |} in
  let st := Sample.browsing "" "all" in
  let w := snd (run (B := Reference.service)
                  (Browse.handleFollow (Some Sample.alice) "u-carol")
                  st Sample.db) in
  fst (respond (Backend := Reference.service) follow Sample.db) = Success tt /\
  List.length (filter isRequest (out w)) = 2 /\
  filter isToast (out w) = [] /\
  Reference.follows (backend w)
    = [{| Follow.follower_id := "u-alice"; Follow.following_id := "u-carol" |}] /\
  Browse.teams (ui w) = Browse.teams st.
Proof.
  intros follow st w.
  split; [reflexivity|].
  destruct (handleFollow_success (B := Reference.service)
              Sample.alice "u-carol" st Sample.db
              (snd (respond (Backend := Reference.service) follow Sample.db))
              eq_refl) as (Hreq & Htoast & Hsrv & _ & Hteams & _).
  fold w in Hreq, Htoast, Hsrv, Hteams.
  split; [now rewrite Hreq|]. split; [exact Htoast|].
  split; [rewrite Hsrv; reflexivity | exact Hteams].
Defined.

(** ** Browse: searching *)

Lemma prefix_app_l (t u s : string) :
  prefix (t ++ u)%string s = true -> prefix t s = true.
Proof.
  revert s. induction t as [|c t IH]; intros s; [now destruct s|].
  destruct s as [|d s]; cbn; [discriminate|].
  destruct (ascii_dec c d); [apply IH | discriminate].
Qed.

Lemma includes_app_l (s t u : string) :
  JS.includes s (t ++ u)%string = true -> JS.includes s t = true.
Proof.
  induction s as [|c s IH]; cbn [JS.includes]; rewrite !orb_true_iff.
  - intros [H|H]; [left; now apply (prefix_app_l t u) | discriminate].
  - intros [H|H]; [left; now apply (prefix_app_l t u) | right; now apply IH].
Qed.

Lemma prefix_refl (s : string) : prefix s s = true.
Proof.
  induction s as [|c s IH]; cbn; [reflexivity|].
  destruct (ascii_dec c c); [exact IH | congruence].
Qed.

Lemma includes_refl (s : string) : JS.includes s s = true.
Proof. destruct s; cbn [JS.includes]; now rewrite prefix_refl. Qed.

Lemma toLowerCase_app (t u : string) :
  JS.toLowerCase (t ++ u) = (JS.toLowerCase t ++ JS.toLowerCase u)%string.
Proof. induction t as [|c t IH]; cbn; [reflexivity | now rewrite IH]. Qed.

Lemma toLowerCase_empty (t : string) : (JS.toLowerCase t =? "") = (t =? "").
Proof. now destruct t. Qed.

Lemma lowerChar_idempotent (c : ascii) :
  JS.lowerChar (JS.lowerChar c) = JS.lowerChar c.
Proof.
  destruct c as [[] [] [] [] [] [] [] []]; vm_compute; reflexivity.
Qed.

Lemma toLowerCase_idempotent (s : string) :
  JS.toLowerCase (JS.toLowerCase s) = JS.toLowerCase s.
Proof.
  induction s as [|c s IH]; cbn; [reflexivity|].
  now rewrite lowerChar_idempotent, IH.
Qed.

Lemma optIncludes_app_l (x : option string) (t u : string) :
  Browse.optIncludes x (t ++ u) = true -> Browse.optIncludes x t = true.
Proof.
  destruct x as [s|]; cbn; [|discriminate].
  rewrite toLowerCase_app. apply includes_app_l.
Qed.

Lemma coderMatches_app_l (t u : string) (coder : Profile.t) :
  Browse.coderMatches (t ++ u) coder = true -> Browse.coderMatches t coder = true.
Proof.
  unfold Browse.coderMatches. rewrite !orb_true_iff.
  intros [[[H|H]|H]|H].
  - apply String.eqb_eq in H. destruct t; [now repeat left | discriminate].
  - left; left; right. rewrite toLowerCase_app in H.
    now apply includes_app_l in H.
  - left; right. now apply optIncludes_app_l in H.
  - right. now apply optIncludes_app_l in H.
Qed.

Lemma teamMatches_app_l (t u : string) (team : Team.t) :
  Browse.teamMatches (t ++ u) team = true -> Browse.teamMatches t team = true.
Proof.
  unfold Browse.teamMatches. rewrite !orb_true_iff.
  intros [[H|H]|H].
  - apply String.eqb_eq in H. destruct t; [now repeat left | discriminate].
  - left; right. rewrite toLowerCase_app in H. now apply includes_app_l in H.
  - right. now apply optIncludes_app_l in H.
Qed.

(** Typing more never brings a card back: every coder or team card shown
    for a search term extended by further characters is also shown for
    the term itself. *)
Theorem longer_search_term_shows_fewer_cards
  (term more : string) (st : Browse.State) :
  let before := Browse.render (Browse.setSearchTerm term st) in
  let after := Browse.render (Browse.setSearchTerm (term ++ more) st) in
  incl (Browse.coderCards after) (Browse.coderCards before) /\
  incl (Browse.teamCards after) (Browse.teamCards before).
Proof.
  cbv zeta. unfold Browse.render, Browse.setSearchTerm. cbn.
  destruct (Browse.loading st); cbn; [split; intros x []|].
  split; intros x Hx; apply filter_In in Hx as [Hin Hm]; apply filter_In;
    (split; [exact Hin|]).
  - now apply (coderMatches_app_l term more).
  - now apply (teamMatches_app_l term more).
Qed.

(** The search does not look at letter case: two search terms with the
    same lower-case form render the same cards. *)
Theorem search_ignores_case (term term' : string) (st : Browse.State) :
  JS.toLowerCase term = JS.toLowerCase term' ->
  Browse.render (Browse.setSearchTerm term st)
  = Browse.render (Browse.setSearchTerm term' st).
Proof.
  intros H. unfold Browse.render, Browse.setSearchTerm. cbn.
  assert (He : (term =? "") = (term' =? ""))
    by now rewrite <- (toLowerCase_empty term), <- (toLowerCase_empty term'), H.
  assert (Hc : forall c, Browse.coderMatches term c = Browse.coderMatches term' c).
  { intros c. unfold Browse.coderMatches, Browse.optIncludes. now rewrite He, H. }
  assert (Ht : forall t, Browse.teamMatches term t = Browse.teamMatches term' t).
  { intros t. unfold Browse.teamMatches, Browse.optIncludes. now rewrite He, H. }
  destruct (Browse.loading st); [reflexivity|].
  f_equal; apply filter_ext; assumption.
Qed.

Lemma search_ignores_case_witness :
  let st := Sample.browsing "" "all" in
  JS.toLowerCase "LISBON" = JS.toLowerCase "Lisbon" /\
  Browse.render (Browse.setSearchTerm "LISBON" st)
  = Browse.render (Browse.setSearchTerm "Lisbon" st) /\
  map Profile.full_name
    (Browse.coderCards (Browse.render (Browse.setSearchTerm "LISBON" st)))
  = ["Carol"].
Proof.
  intros st. split; [reflexivity|].
  split; [|reflexivity].
  apply (search_ignores_case "LISBON" "Lisbon" st). reflexivity.
Defined.

(** A fetched coder is always found by the full name, and a fetched team
    by its name, in any letter case. *)
Theorem found_by_own_name (term : string) (st : Browse.State) :
  Browse.loading st = false ->
  (forall coder, In coder (Browse.coders st) ->
     JS.toLowerCase term = JS.toLowerCase (Profile.full_name coder) ->
     In coder (Browse.coderCards (Browse.render (Browse.setSearchTerm term st)))) /\
  (forall team, In team (Browse.teams st) ->
     JS.toLowerCase term = JS.toLowerCase (Team.name team) ->
     In team (Browse.teamCards (Browse.render (Browse.setSearchTerm term st)))).
Proof.
  intros Hl. unfold Browse.render, Browse.setSearchTerm. cbn. rewrite Hl. cbn.
  split; intros x Hin Hterm; apply filter_In; (split; [exact Hin|]).
  - unfold Browse.coderMatches. rewrite Hterm, includes_refl.
    now rewrite orb_true_r.
  - unfold Browse.teamMatches. rewrite Hterm, includes_refl.
    now rewrite orb_true_r.
Qed.

Lemma found_by_own_name_witness :
  let st := Sample.browsing "" "all" in
  let carol := Sample.coder "u-carol" "Carol" None (Some "Lisbon") in
  (Browse.loading st = false /\ In carol (Browse.coders st) /\
   JS.toLowerCase "cAROL" = JS.toLowerCase (Profile.full_name carol)) /\
  In carol (Browse.coderCards (Browse.render (Browse.setSearchTerm "cAROL" st))).
Proof.
  intros st carol.
  assert (Hin : In carol (Browse.coders st)) by (right; left; reflexivity).
  split; [repeat split; trivial|].
  exact (proj1 (found_by_own_name "cAROL" st eq_refl) carol Hin eq_refl).
Defined.

(** ** Messages: one draft for all conversations *)

Section MessagesDraft.

Context {B : Backend}.
Import Messages MessagesView.

(** Selecting a conversation keeps the text being typed, whether its
    messages load or not; so a text typed under one conversation and sent
    after a click on another goes, trimmed, to the conversation clicked
    last. *)
Theorem draft_follows_the_selection
  (u : User.t) (text conversationId : string) (st : State) (b : Srv) :
  conversationId <> "" -> JS.trim text <> "" ->
  let typed := snd (run (handleAll [InputChanged text;
                                    ConversationClicked conversationId]) st b) in
  let sent := snd (run (handleAll [InputChanged text;
                                   ConversationClicked conversationId;
                                   SendPressed (Some u)]) st b) in
  newMessage (ui typed) = text /\
  selectedConversation (ui typed) = Some conversationId /\
  In (Sent (insert_message
              {| NewMessage.conversation_id := conversationId;
                 NewMessage.sender_id := User.id u;
                 NewMessage.content := JS.trim text |}))
     (out sent).
Proof.
  intros Hc Ht. apply not_false_iff in Hc, Ht.
  cbv zeta. cbn [handleAll handle].
  unfold selectConversation, loadMessages, sendMessage. unfold_handler.
  destruct (respond (select_messages [eq_ "conversation_id" conversationId]
                                     (order_ "created_at" true)) b)
    as [[data|error] b1]; cbn [ui backend out fst snd];
    (split; [reflexivity|]); (split; [reflexivity|]);
    cbn [ui backend out fst snd selectedConversation newMessage
         setMessages setSelectedConversation setNewMessage];
    rewrite Ht, Hc; cbn [orb];
    match goal with
    | |- context [respond ?q ?s] => destruct (respond q s) as [[?|?] ?]
    end; cbn [ui backend out fst snd]; rewrite ?in_app_iff; cbn; tauto.
Qed.

End MessagesDraft.

(** Alice, reading "c1", types a greeting, clicks "c2" while the service
    is down, and presses Enter: the greeting is sent to "c2". *)
Lemma draft_follows_the_selection_witness :
  let flaky := Reference.withOutage [Some Sample.timeout] Sample.db in
  let sent := snd (run (B := Reference.service)
                     (MessagesView.handleAll
                        [MessagesView.InputChanged " hi Bob ";
                         MessagesView.ConversationClicked "c2";
                         MessagesView.SendPressed (Some Sample.alice)])
                     Sample.reading flaky) in
  ("c2" <> "" /\ JS.trim " hi Bob " <> "") /\
  In (Sent (insert_message {| NewMessage.conversation_id := "c2";
                              NewMessage.sender_id := "u-alice";
                              NewMessage.content := "hi Bob" |}))
     (out sent) /\
  map Message.conversation_id (Reference.messages (backend sent))
    = ["c1"; "c2"; "c1"; "c2"].
Proof.
  intros flaky sent.
  assert (Hc : "c2" <> "") by discriminate.
  assert (Ht : JS.trim " hi Bob " <> "") by discriminate.
  split; [split; assumption|]. split; [|reflexivity].
  exact (proj2 (proj2 (draft_follows_the_selection (B := Reference.service)
                         Sample.alice " hi Bob " "c2" Sample.reading flaky Hc Ht))).
Defined.
